(** * Budget notification handler (main.py): model and properties

    A shallow embedding of the Cloud Function [handle_budgets_notifications]
    and its helpers.  The two external services (Cloud Firestore and the
    Cloud Billing API), the clock, the process environment and the
    base64/JSON decoder are collected in a record [env] of oracles; the
    document store is explicit state, and every call to an external
    service and every [logging.info] is recorded, in program order, in a
    trace.  Python exceptions are the [Err] results of a small
    state-and-exception monad.  Python's [float] is the binary64 type
    of the kernel, with its own addition and comparisons. *)

From stdpp Require Import gmap strings list fin_maps.
From Stdlib Require Import ZArith Lia Floats.

Set Warnings "-register-all,-clear-no-such-hyp,-inexact-float".
Open Scope string_scope.
Open Scope list_scope.
Open Scope Z_scope.

(** ** Python values *)

(** The values [json.loads] produces and Firestore stores: a JSON number
    is an [int] when it is written without fraction and exponent, a
    [float] otherwise ([100.01], [NaN], [Infinity]). *)
Inductive value : Type :=
| VNone
| VBool (b : bool)
| VInt (n : Z)
| VFloat (x : float)
| VStr (s : string)
| VList (l : list value)
| VDict (d : gmap string value).

Abbreviation dict := (gmap string value).

(** Python truthiness, as used by [if x:] and [not x]. *)
Definition truthy (v : value) : bool :=
  match v with
  | VNone => false
  | VBool b => b
  | VInt n => negb (n =? 0)
  | VFloat x => negb (PrimFloat.eqb x 0)
  | VStr s => negb (String.eqb s "")
  | VList l => match l with [] => false | _ => true end
  | VDict d => negb (Nat.eqb (size d) 0)
  end.

(** ** Exceptions *)

Inductive exn : Type :=
| DecodeError                 (* b64decode, decode('utf-8') or json.loads raised *)
| KeyError (k : string)
| TypeError
| OverflowError               (* int too large to convert to float *)
| RuntimeError (msg : string)
| AssertionError
| StoreError.                 (* batch.commit() raised *)

Inductive result (A : Type) : Type :=
| Ok (a : A)
| Err (e : exn).
Arguments Ok {A} a.
Arguments Err {A} e.

(** ** Python numbers *)

(** What [+] and [<] work on: an [int] of any size or a [float]. *)
Inductive number : Type :=
| NInt (n : Z)
| NFloat (x : float).

(** [bool] is a subclass of [int]: both take part in [+] and [<]. *)
Definition num_of (v : value) : option number :=
  match v with
  | VInt n => Some (NInt n)
  | VBool b => Some (NInt (if b then 1 else 0))
  | VFloat x => Some (NFloat x)
  | _ => None
  end.

(** The int a value is, when it is an int or a bool. *)
Definition int_of (v : value) : option Z :=
  match v with
  | VInt n => Some n
  | VBool b => Some (if b then 1 else 0)
  | _ => None
  end.

(** [float(a)] for an int: the nearest binary64 value, ties to even;
    [OverflowError] when that is out of range. *)
Definition float_of_int (a : Z) : result float :=
  match binary_normalize prec emax a 0 false with
  | S754_infinity _ => Err OverflowError
  | sf => Ok (SF2Prim sf)
  end.

(** [a + b]: exact on two ints; as soon as one side is a float the other
    is converted and the addition is the binary64 one. *)
Definition num_add (a b : number) : result number :=
  match a, b with
  | NInt m, NInt n => Ok (NInt (m + n))
  | NInt m, NFloat y =>
      match float_of_int m with
      | Ok x => Ok (NFloat (PrimFloat.add x y))
      | Err e => Err e
      end
  | NFloat x, NInt n =>
      match float_of_int n with
      | Ok y => Ok (NFloat (PrimFloat.add x y))
      | Err e => Err e
      end
  | NFloat x, NFloat y => Ok (NFloat (PrimFloat.add x y))
  end.

(** An int against a float, compared as Python does, on their exact
    values and without conversion; [None] against a NaN. *)
Definition int_cmp_float (a : Z) (y : float) : option comparison :=
  match Prim2SF y with
  | S754_nan => None
  | S754_infinity negative => Some (if negative then Gt else Lt)
  | S754_zero _ => Some (a ?= 0)
  | S754_finite negative m e =>
      let v := if negative then Z.neg m else Z.pos m in
      Some (if 0 <=? e then a ?= v * 2 ^ e else a * 2 ^ (- e) ?= v)
  end.

(** [a < b] *)
Definition num_lt (a b : number) : bool :=
  match a, b with
  | NInt m, NInt n => m <? n
  | NInt m, NFloat y =>
      match int_cmp_float m y with Some Lt => true | _ => false end
  | NFloat x, NInt n =>
      match int_cmp_float n x with Some Gt => true | _ => false end
  | NFloat x, NFloat y => PrimFloat.ltb x y
  end.

(** [a >= b] *)
Definition num_ge (a b : number) : bool :=
  match a, b with
  | NInt m, NInt n => n <=? m
  | NInt m, NFloat y =>
      match int_cmp_float m y with Some (Gt | Eq) => true | _ => false end
  | NFloat x, NInt n =>
      match int_cmp_float n x with Some (Lt | Eq) => true | _ => false end
  | NFloat x, NFloat y => PrimFloat.leb y x
  end.

(** ** The document store, the trace and the external world *)

(** A [batch.set(ref, data)] waiting for [batch.commit()]. *)
Record write : Type := MkWrite {
  w_collection : string;
  w_document : string;
  w_data : dict
}.

(** Cloud Firestore: documents addressed by collection name and
    document id. *)
Abbreviation firestore := (gmap (string * string) dict).

(** [set] without [merge] replaces the whole document. *)
Definition apply_write (db : firestore) (w : write) : firestore :=
  <[(w_collection w, w_document w) := w_data w]> db.

Definition apply_batch (db : firestore) (ws : list write) : firestore :=
  fold_left apply_write ws db.

(** What a run does to the outside, in program order: calls to the two
    services and the [logging.info] lines (with the values formatted
    into them). *)
Inductive event : Type :=
| LogHandling (project : value)
| LogBudget (budget : value)
| LogCost (cost interval : value)
| GetBillingInfo (name : string)
| DocGet (collection document : string)
| LogLedger (ledger : dict)
| Commit (writes : list write)
| LogTotal (total : number)
| LogNoAction (total : number)
| LogDisabling (budget : value) (project : string)
| UpdateBillingInfo (name : string) (body : dict).

(** The collaborators the handler does not implement. *)
Record env : Type := Env {
  (* json.loads(base64.b64decode(x).decode('utf-8')); None when any of
     the three raises *)
  loads_b64 : value -> option value;
  (* os.environ *)
  environ : gmap string string;
  (* datetime.now().isoformat() *)
  now_isoformat : string;
  (* the answer of projects().getBillingInfo(name=...).execute() *)
  getBillingInfo : string -> option dict;
  (* the answer of projects().updateBillingInfo(name=..., body=...).execute() *)
  updateBillingInfo : string -> dict -> option dict;
  (* the id document() generates *)
  auto_id : string;
  (* whether batch.commit() goes through *)
  commit_succeeds : bool;
  (* the order in which a dict yields its items: that of insertion, as
     the Firestore client built it; every item comes once *)
  items_order : dict -> list (string * value);
  items_order_all : forall d, items_order d ≡ₚ map_to_list d
}.

(** The state a run threads: the store, the one notification object
    (decoded once, then passed by reference, mutated by the ledger step
    and read again by the persistence step) and the trace so far. *)
Record state : Type := State {
  db : firestore;
  notification : value;
  trace : list event
}.

Definition init (d : firestore) : state :=
  {| db := d; notification := VNone; trace := [] |}.

(** The state with more events in its trace. *)
Definition logged (st : state) (es : list event) : state :=
  {| db := db st; notification := notification st; trace := trace st ++ es |}.

(** ** State and exception monad *)

Definition M (A : Type) : Type := state -> result A * state.

Definition ret {A} (a : A) : M A := fun st => (Ok a, st).
Definition raise {A} (e : exn) : M A := fun st => (Err e, st).
Definition bind {A B} (m : M A) (k : A -> M B) : M B :=
  fun st => match m st with
            | (Ok a, st') => k a st'
            | (Err e, st') => (Err e, st')
            end.

Notation "x <- m ;; k" := (bind m (fun x => k))
  (at level 100, m at next level, right associativity).
Notation "m ;;; k" := (bind m (fun _ => k))
  (at level 100, right associativity).

Definition emit (e : event) : M unit := fun st => (Ok tt, logged st [e]).
Definition get_db : M firestore := fun st => (Ok (db st), st).
Definition put_db (d : firestore) : M unit :=
  fun st => (Ok tt, {| db := d; notification := notification st; trace := trace st |}).
Definition get_notification : M value := fun st => (Ok (notification st), st).
Definition put_notification (v : value) : M unit :=
  fun st => (Ok tt, {| db := db st; notification := v; trace := trace st |}).

(** ** The services *)

Section Services.

Variable E : env.

(** [__db.collection(c).document(doc).get().to_dict()]: the document,
    or [None] when there is none. *)
Definition document_to_dict (collection document : string) : M (option dict) :=
  emit (DocGet collection document) ;;;
  d <- get_db ;;
  ret (d !! (collection, document)).

(** [batch.commit()]: Firestore applies the writes of a batch in order,
    all of them or none. *)
Definition batch_commit (batch : list write) : M unit :=
  emit (Commit batch) ;;;
  if commit_succeeds E then
    d <- get_db ;;
    put_db (apply_batch d batch)
  else raise StoreError.

(** [service.projects().getBillingInfo(name=name).execute()] *)
Definition projects_getBillingInfo (name : string) : M (option dict) :=
  emit (GetBillingInfo name) ;;;
  ret (getBillingInfo E name).

(** [service.projects().updateBillingInfo(name=name, body=body).execute()] *)
Definition projects_updateBillingInfo (name : string) (body : dict) : M (option dict) :=
  emit (UpdateBillingInfo name body) ;;;
  ret (updateBillingInfo E name body).

End Services.

(** ** Python operations *)

(** [v[k]] for a str [k]. *)
Definition subscript (v : value) (k : string) : M value :=
  match v with
  | VDict d => match d !! k with
               | Some x => ret x
               | None => raise (KeyError k)
               end
  | _ => raise TypeError
  end.

(** [v[k] = x] for a str [k]. *)
Definition set_item (v : value) (k : string) (x : value) : M value :=
  match v with
  | VDict d => ret (VDict (<[k := x]> d))
  | _ => raise TypeError
  end.

(** [v] where a str is needed: dict keys are Firestore field names,
    and a key of any other type is unhashable or refused by the client
    before anything is sent. *)
Definition as_str (v : value) : M string :=
  match v with
  | VStr s => ret s
  | _ => raise TypeError
  end.

(** [sum(vs)]: the items added with [+] from left to right, starting
    from what has been added so far ([0] at first).  This is [sum] as
    documented and as CPython computes it up to version 3.11; later
    versions compensate the rounding error of float items. *)
Fixpoint sum_from (acc : number) (vs : list value) : result number :=
  match vs with
  | [] => Ok acc
  | v :: vs' => match num_of v with
                | Some n => match num_add acc n with
                            | Ok acc' => sum_from acc' vs'
                            | Err e => Err e
                            end
                | None => Err TypeError
                end
  end.

(** [d.values()] *)
Definition values (E : env) (d : dict) : list value := (items_order E d).*2.

Definition py_sum (vs : list value) : M number :=
  match sum_from (NInt 0) vs with
  | Ok t => ret t
  | Err e => raise e
  end.

(** [total < budget] for the number [total]. *)
Definition lt_value (total : number) (budget : value) : result bool :=
  match num_of budget with
  | Some b => Ok (num_lt total b)
  | None => Err TypeError
  end.

(** [total >= budget] for the number [total]. *)
Definition ge_value (total : number) (budget : value) : result bool :=
  match num_of budget with
  | Some b => Ok (num_ge total b)
  | None => Err TypeError
  end.

Definition py_lt (total : number) (budget : value) : M bool :=
  match lt_value total budget with
  | Ok below => ret below
  | Err e => raise e
  end.

(** ** The program *)

(** [__costs_per_interval_starts_doc_name] *)
Definition costs_per_interval_starts_doc_name : string :=
  "0-costs-per-interval-starts".

(** Lines 96-98 of [__is_billing_enabled]: what the function returns for
    the [billing_info] the API answered. *)
Definition billing_enabled_of (billing_info : option dict) : value :=
  match billing_info with
  | None => VBool false                        (* not billing_info *)
  | Some info =>
      if negb (truthy (VDict info)) then VBool false
      else match info !! "billingEnabled" with
           | None => VBool false               (* key not in billing_info *)
           | Some enabled => enabled
           end
  end.

Section Program.

Variable E : env.

(** [__get_collection_name] *)
Definition get_collection_name (budget_project_id : value) : M string :=
  let collection_name_prefix :=
    default "budget-notifications" (environ E !! "COLLECTION_NAME_PREFIX") in
  match budget_project_id with
  | VStr p => ret (collection_name_prefix +:+ "-" +:+ p)
  | _ => raise TypeError                       (* str + non-str *)
  end.

(** [__is_billing_enabled] *)
Definition is_billing_enabled (project_id : string) : M value :=
  billing_info <- projects_getBillingInfo E ("projects/" +:+ project_id) ;;
  ret (billing_enabled_of billing_info).

(** [__get_costs_per_interval_starts_dict]; [budget_notification_data]
    is the notification object of the state. *)
Definition get_costs_per_interval_starts_dict (collection_name : string) : M dict :=
  budget_notification_data <- get_notification ;;
  with_added_at <-
    set_item budget_notification_data "addedAt" (VStr (now_isoformat E)) ;;
  put_notification with_added_at ;;;
  costs_per_interval_starts_dict <-
    document_to_dict collection_name costs_per_interval_starts_doc_name ;;
  budget_notification_data <- get_notification ;;
  let fresh : M dict :=
    interval <- subscript budget_notification_data "costIntervalStart" ;;
    cost <- subscript budget_notification_data "costAmount" ;;
    k <- as_str interval ;;
    ret {[k := cost]} in
  match costs_per_interval_starts_dict with
  | Some costs =>
      if truthy (VDict costs) then
        cost <- subscript budget_notification_data "costAmount" ;;
        interval <- subscript budget_notification_data "costIntervalStart" ;;
        k <- as_str interval ;;
        ret (<[k := cost]> costs)
      else fresh
  | None => fresh
  end.

(** [__disable_billing_for_project] *)
Definition disable_billing_for_project (project_id : string) : M unit :=
  billing_info <-
    projects_updateBillingInfo E ("projects/" +:+ project_id)
      {["billingAccountName" := VStr ""]} ;;
  match billing_info with
  | None => raise TypeError                    (* key not in None *)
  | Some info =>
      match info !! "billingAccountName" with
      | None => ret tt
      | Some _ => raise AssertionError
      end
  end.

(** [__persist_data]; [budget_notification_data] is the notification
    object of the state. *)
Definition persist_data (collection_name : string)
    (costs_per_interval_starts_dict : dict) : M unit :=
  budget_notification_data <- get_notification ;;
  match budget_notification_data with
  | VDict record =>
      let batch :=
        [ MkWrite collection_name costs_per_interval_starts_doc_name
                  costs_per_interval_starts_dict;
          MkWrite collection_name (auto_id E) record ] in
      batch_commit E batch
  | _ => raise TypeError                       (* set() of a non-dict *)
  end.

(** [__handle_billing_depending_on_total] *)
Definition handle_billing_depending_on_total (budget_project_id : string)
    (budget : value) (total : number) : M unit :=
  below <- py_lt total budget ;;
  if below : bool then emit (LogNoAction total)
  else
    emit (LogDisabling budget budget_project_id) ;;;
    disable_billing_for_project budget_project_id.

(** [handle_budgets_notifications] *)
Definition handle_budgets_notifications (data : dict) : M unit :=
  payload <- subscript (VDict data) "data" ;;
  match loads_b64 E payload with
  | None => raise DecodeError
  | Some pubsub_budget_notification_data =>
      put_notification pubsub_budget_notification_data ;;;
      budget_project_id <- subscript pubsub_budget_notification_data "budgetDisplayName" ;;
      budget <- subscript pubsub_budget_notification_data "budgetAmount" ;;
      emit (LogHandling budget_project_id) ;;;
      emit (LogBudget budget) ;;;
      cost <- subscript pubsub_budget_notification_data "costAmount" ;;
      interval <- subscript pubsub_budget_notification_data "costIntervalStart" ;;
      emit (LogCost cost interval) ;;;
      collection_name <- get_collection_name budget_project_id ;;
      (* a str from here on: the concatenation above raised otherwise *)
      project_id <- as_str budget_project_id ;;
      enabled <- is_billing_enabled project_id ;;
      if negb (truthy enabled) then
        raise (RuntimeError "Billing already in disabled state")
      else
        costs_per_interval_starts_dict <-
          get_costs_per_interval_starts_dict collection_name ;;
        emit (LogLedger costs_per_interval_starts_dict) ;;;
        persist_data collection_name costs_per_interval_starts_dict ;;;
        total <- py_sum (values E costs_per_interval_starts_dict) ;;
        emit (LogTotal total) ;;;
        handle_billing_depending_on_total project_id budget total
  end.

(** Lines 52-58 of the handler: what follows the persistence step. *)
Definition after_persist (p : string) (budget : value) (ledger : dict) : M unit :=
  total <- py_sum (values E ledger) ;;
  emit (LogTotal total) ;;;
  handle_billing_depending_on_total p budget total.

End Program.

(** One invocation of the Cloud Function on the store [d]. *)
Definition run (E : env) (data : dict) (d : firestore) : result unit * state :=
  handle_budgets_notifications E data (init d).

(** The store after the invocations [invs], each an event with the world
    it runs in, delivered one after the other. *)
Fixpoint deliver (invs : list (env * dict)) (d : firestore) : firestore :=
  match invs with
  | [] => d
  | (E, data) :: rest => deliver rest (db (run E data d).2)
  end.

(** ** Vocabulary of the properties *)

(** The collection of a project, as [__get_collection_name] builds it. *)
Definition collection_of (E : env) (p : string) : string :=
  default "budget-notifications" (environ E !! "COLLECTION_NAME_PREFIX")
    +:+ "-" +:+ p.

(** The ledger document of a project in a store. *)
Definition ledger_of (E : env) (p : string) (d : firestore) : option dict :=
  d !! (collection_of E p, costs_per_interval_starts_doc_name).

(** Insert-or-overwrite into the fetched ledger, no ledger counting as
    the empty one. *)
Definition upsert (fetched : option dict) (k : string) (c : value) : dict :=
  <[k := c]> (default ∅ fetched).

(** The event decodes to the object [n], which carries the four fields
    the handler reads: project [p], [budget], [cost] and interval [k]. *)
Record carries (E : env) (data n : dict) (p : string) (budget cost : value)
    (k : string) : Prop := Carries {
  car_payload : ∃ raw, data !! "data" = Some raw ∧ loads_b64 E raw = Some (VDict n);
  car_project : n !! "budgetDisplayName" = Some (VStr p);
  car_budget : n !! "budgetAmount" = Some budget;
  car_cost : n !! "costAmount" = Some cost;
  car_interval : n !! "costIntervalStart" = Some (VStr k)
}.

(** The billing-status check confirms billing enabled for [p]. *)
Definition confirmed (E : env) (p : string) : bool :=
  truthy (billing_enabled_of (getBillingInfo E ("projects/" +:+ p))).

(** The notification object as the ledger step leaves it. *)
Definition stamped (E : env) (n : dict) : dict :=
  <["addedAt" := VStr (now_isoformat E)]> n.

(** The batch the persistence step commits. *)
Definition batch_of (E : env) (p : string) (ledger record : dict) : list write :=
  [ MkWrite (collection_of E p) costs_per_interval_starts_doc_name ledger;
    MkWrite (collection_of E p) (auto_id E) record ].

(** The trace up to and including the billing-status check. *)
Definition entry_trace (p : string) (budget cost : value) (k : string) : list event :=
  [ LogHandling (VStr p); LogBudget budget; LogCost cost (VStr k);
    GetBillingInfo ("projects/" +:+ p) ].

(** The trace up to and including the commit. *)
Definition persist_trace (E : env) (p : string) (budget cost : value) (k : string)
    (ledger record : dict) : list event :=
  entry_trace p budget cost k ++
  [ DocGet (collection_of E p) costs_per_interval_starts_doc_name;
    LogLedger ledger; Commit (batch_of E p ledger record) ].

(** The state of a run once it has persisted. *)
Definition persisted (E : env) (d : firestore) (n : dict) (p : string)
    (budget cost : value) (k : string) : state :=
  let ledger := upsert (ledger_of E p d) k cost in
  {| db := apply_batch d (batch_of E p ledger (stamped E n));
     notification := VDict (stamped E n);
     trace := persist_trace E p budget cost k ledger (stamped E n) |}.

(** The request [__disable_billing_for_project] sends, and the answer. *)
Definition unlink_request (p : string) : event :=
  UpdateBillingInfo ("projects/" +:+ p) {["billingAccountName" := VStr ""]}.

Definition unlink_response (E : env) (p : string) : option dict :=
  updateBillingInfo E ("projects/" +:+ p) {["billingAccountName" := VStr ""]}.

(** The post-condition line 133 asserts on the answer. *)
Definition unlinked (response : option dict) : Prop :=
  ∃ info, response = Some info ∧ info !! "billingAccountName" = None.

Definition is_disable (e : event) : bool :=
  match e with UpdateBillingInfo _ _ => true | _ => false end.

(** How many times the run asked the API to disable billing. *)
Definition disable_calls (tr : list event) : nat :=
  length (filter (fun e => is_disable e = true) tr).

Definition is_log (e : event) : bool :=
  match e with
  | LogHandling _ | LogBudget _ | LogCost _ _ | LogLedger _
  | LogTotal _ | LogNoAction _ | LogDisabling _ _ => true
  | _ => false
  end.

Definition is_store_call (e : event) : bool :=
  match e with DocGet _ _ | Commit _ => true | _ => false end.

Definition is_commit (e : event) : bool :=
  match e with Commit _ => true | _ => false end.

(** The invocation [inv] processes, for project [p] stored in collection
    [coll], a notification of interval [note.1] and cost [note.2]: it
    carries the fields, billing is confirmed enabled, the commit goes
    through and the generated document id is not the ledger's name. *)
Definition processed_for (coll p : string) (inv : env * dict)
    (note : string * value) : Prop :=
  ∃ n budget,
    carries inv.1 inv.2 n p budget note.2 note.1 ∧
    confirmed inv.1 p = true ∧
    commit_succeeds inv.1 = true ∧
    auto_id inv.1 ≠ costs_per_interval_starts_doc_name ∧
    collection_of inv.1 p = coll.

Definition record_cost (m : dict) (note : string * value) : dict :=
  <[note.1 := note.2]> m.

(** The amount an int entry of a ledger stands for. *)
Definition amount (v : value) : Z := default 0 (int_of v).

(** The sum of all the amounts a ledger of ints holds. *)
Definition ledger_total (m : dict) : Z :=
  map_fold (λ _ v acc, amount v + acc) 0 m.

(** Every entry of the ledger is a number. *)
Definition numeric (m : dict) : Prop :=
  map_Forall (λ _ v, is_Some (num_of v)) m.

(** Every entry of the ledger is an int. *)
Definition integral (m : dict) : Prop :=
  map_Forall (λ _ v, is_Some (int_of v)) m.

(** [sum] of one number: [0 + c]. *)
Definition sum_of_one (c : number) : number :=
  match c with
  | NInt z => NInt z
  | NFloat x => NFloat (PrimFloat.add 0 x)
  end.

(** No value of the list is a float. *)
Definition float_free (vs : list value) : Prop :=
  Forall (λ v, ∀ x, v ≠ VFloat x) vs.

(** The contract of [IsBillingEnabled] in the words of the
    specification: the reported flag, and false when there is no billing
    info or no flag in it. *)
Definition reported_enabled (billing_info : option dict) : value :=
  match billing_info with
  | Some info => default (VBool false) (info !! "billingEnabled")
  | None => VBool false
  end.

(** The fields of a notification the handler reads. *)
Definition required_fields : list string :=
  [ "budgetDisplayName"; "budgetAmount"; "costAmount"; "costIntervalStart" ].

(** The field [f] of a decoded payload; a payload that is not an object
    has none. *)
Definition field (v : value) (f : string) : option value :=
  match v with
  | VDict n => n !! f
  | _ => None
  end.

(** The event has no payload, or one that does not decode, or one that
    decodes to something lacking a required field. *)
Inductive malformed (E : env) (data : dict) : Prop :=
| Malformed_no_payload :
    data !! "data" = None → malformed E data
| Malformed_undecodable raw :
    data !! "data" = Some raw → loads_b64 E raw = None → malformed E data
| Malformed_missing raw v f :
    data !! "data" = Some raw → loads_b64 E raw = Some v →
    f ∈ required_fields → field v f = None → malformed E data.

(** The exceptions the malformed-input kind stands for. *)
Definition malformed_input (e : exn) : bool :=
  match e with
  | DecodeError | KeyError _ | TypeError => true
  | _ => false
  end.

(** Every field of the payload is stored with the value it came with. *)
Definition stored_unchanged (payload record : dict) : Prop :=
  ∀ f v, payload !! f = Some v → record !! f = Some v.

(** An event that changes nothing outside the run: neither a commit to
    the store nor a request to unlink the billing account. *)
Definition harmless (e : event) : bool :=
  match e with
  | Commit _ | UpdateBillingInfo _ _ => false
  | _ => true
  end.

(** The invocation [inv] processes, for project [p] stored in collection
    [coll], a notification that decodes to the object [n]. *)
Definition recorded_for (coll p : string) (inv : env * dict) (n : dict) : Prop :=
  ∃ budget cost k,
    carries inv.1 inv.2 n p budget cost k ∧
    confirmed inv.1 p = true ∧
    commit_succeeds inv.1 = true ∧
    auto_id inv.1 ≠ costs_per_interval_starts_doc_name ∧
    collection_of inv.1 p = coll.

(** ** Scenarios *)

(** A Pub/Sub event, and a world in which its payload decodes to
    [decoded], the billing API answers [info] to the status request and
    [answer] to the unlink request, and the commit succeeds or not. *)
Definition ex_event : dict := {[ "data" := VStr "eyJidWRnZXQiOiAuLi59" ]}.

Definition ex_world (decoded : option value) (info answer : option dict)
    (commits : bool) : env :=
  {| loads_b64 := λ _, decoded;
     environ := ∅;
     now_isoformat := "2024-02-03T10:00:00.000000";
     getBillingInfo := λ _, info;
     updateBillingInfo := λ _ _, answer;
     auto_id := "Zk3mQ0a9TnX2bL7wRsUe";
     commit_succeeds := commits;
     items_order := map_to_list;
     items_order_all := λ _, Permutation_refl _ |}.

(** A notification for project [p1]. *)
Definition ex_note (budget cost : Z) (interval : string) : dict :=
  {[ "budgetDisplayName" := VStr "p1"; "budgetAmount" := VInt budget;
     "costAmount" := VInt cost; "costIntervalStart" := VStr interval ]}.

Definition ex_enabled : option dict :=
  Some {[ "projectId" := VStr "p1"; "billingEnabled" := VBool true ]}.
Definition ex_disabled : option dict :=
  Some {[ "projectId" := VStr "p1" ]}.
Definition ex_unlinked : option dict :=
  Some {[ "projectId" := VStr "p1" ]}.
Definition ex_still_linked : option dict :=
  Some {[ "projectId" := VStr "p1";
          "billingAccountName" := VStr "billingAccounts/0X0X0X" ]}.

(** The world in which a notification of [p1] is processed. *)
Definition ex_processing (budget cost : Z) (interval : string) : env :=
  ex_world (Some (VDict (ex_note budget cost interval))) ex_enabled ex_unlinked true.

(** The same notification when billing is not confirmed enabled, when
    the commit fails, and when the unlink request is not honoured. *)
Definition ex_not_confirmed (budget cost : Z) (interval : string) : env :=
  ex_world (Some (VDict (ex_note budget cost interval))) ex_disabled ex_unlinked true.
Definition ex_store_down (budget cost : Z) (interval : string) : env :=
  ex_world (Some (VDict (ex_note budget cost interval))) ex_enabled ex_unlinked false.
Definition ex_not_unlinking (budget cost : Z) (interval : string) : env :=
  ex_world (Some (VDict (ex_note budget cost interval))) ex_enabled ex_still_linked true.

(** The store of [p1] with cost 70 recorded for January. *)
Definition ex_store : firestore :=
  {[ ("budget-notifications-p1", "0-costs-per-interval-starts") :=
       {[ "2024-01" := VInt 70 ]} ]}.

(** Scenarios 1 to 3 of the specification, one after the other. *)
Definition ex_deliveries : list (env * dict) :=
  [ (ex_processing 100 40 "2024-01", ex_event);
    (ex_processing 100 70 "2024-01", ex_event);
    (ex_processing 100 30 "2024-02", ex_event) ].

Definition ex_notes : list (string * value) :=
  [ ("2024-01", VInt 40); ("2024-01", VInt 70); ("2024-02", VInt 30) ].

(** Scenario 5: a payload without [costIntervalStart]. *)
Definition ex_truncated : dict :=
  {[ "budgetDisplayName" := VStr "p1"; "budgetAmount" := VInt 100;
     "costAmount" := VInt 40 ]}.

(** A payload that already carries an [addedAt]. *)
Definition ex_restamped : dict :=
  <[ "addedAt" := VStr "2023-12-31T23:59:59" ]> (ex_note 100 40 "2024-01").

(** A notification for project [p1] with decimal amounts, the world in
    which it is processed, and the store of [p1] with cost 70.25 recorded
    for January. *)
Definition ex_priced (budget cost : float) (interval : string) : dict :=
  {[ "budgetDisplayName" := VStr "p1"; "budgetAmount" := VFloat budget;
     "costAmount" := VFloat cost; "costIntervalStart" := VStr interval ]}.

Definition ex_pricing (budget cost : float) (interval : string) : env :=
  ex_world (Some (VDict (ex_priced budget cost interval))) ex_enabled ex_unlinked true.

Definition ex_priced_store : firestore :=
  {[ ("budget-notifications-p1", "0-costs-per-interval-starts") :=
       {[ "2024-01" := VFloat 70.25 ]} ]}.

(** A payload whose project id is a number. *)
Definition ex_numbered : dict :=
  {[ "budgetDisplayName" := VInt 7; "budgetAmount" := VInt 100;
     "costAmount" := VInt 40; "costIntervalStart" := VStr "2024-01" ]}.

(** A payload whose cost is a str, one whose budget is a str, and the
    worlds in which they are processed. *)
Definition ex_worded_cost : dict :=
  {[ "budgetDisplayName" := VStr "p1"; "budgetAmount" := VInt 100;
     "costAmount" := VStr "40.5"; "costIntervalStart" := VStr "2024-02" ]}.
Definition ex_worded_budget : dict :=
  {[ "budgetDisplayName" := VStr "p1"; "budgetAmount" := VStr "100";
     "costAmount" := VInt 40; "costIntervalStart" := VStr "2024-02" ]}.
Definition ex_processing_of (n : dict) : env :=
  ex_world (Some (VDict n)) ex_enabled ex_unlinked true.

(** A store that also holds the ledger of a project [p2]. *)
Definition ex_shared_store : firestore :=
  <[ ("budget-notifications-p2", "0-costs-per-interval-starts") :=
       {[ "2024-01" := VInt 5 ]} ]> ex_store.

(** A world like [ex_processing] that generates the document id [id]. *)
Definition ex_processing_as (id : string) (budget cost : Z) (interval : string) : env :=
  {| loads_b64 := λ _, Some (VDict (ex_note budget cost interval));
     environ := ∅;
     now_isoformat := "2024-02-03T10:00:00.000000";
     getBillingInfo := λ _, ex_enabled;
     updateBillingInfo := λ _ _, ex_unlinked;
     auto_id := id;
     commit_succeeds := true;
     items_order := map_to_list;
     items_order_all := λ _, Permutation_refl _ |}.

(** ** Proof automation *)

(** A scenario's event carries its notification. *)
Ltac carries_note :=
  constructor;
  [ exists (VStr "eyJidWRnZXQiOiAuLi59"); split; reflexivity
  | reflexivity .. ].

(** The run raised [e] with the store untouched and nothing but log
    lines in the trace. *)
Ltac raised_with e :=
  exists e; eexists; eexists;
  split; [reflexivity | split; [reflexivity | repeat constructor]].

(** ** The helpers, one by one *)

Section Helpers.

Variable E : env.

Lemma truthy_dict_empty (m : dict) :
  truthy (VDict m) = false → m = ∅.
Proof.
  simpl. intros H. apply map_size_empty_iff.
  destruct (size m); [done | discriminate H].
Qed.

Lemma get_collection_name_str p st :
  get_collection_name E (VStr p) st = (Ok (collection_of E p), st).
Proof. reflexivity. Qed.

Lemma is_billing_enabled_run p st :
  is_billing_enabled E p st =
  (Ok (billing_enabled_of (getBillingInfo E ("projects/" +:+ p))),
   logged st [GetBillingInfo ("projects/" +:+ p)]).
Proof. reflexivity. Qed.

Lemma get_costs_run coll st n k c :
  notification st = VDict n →
  n !! "costIntervalStart" = Some (VStr k) →
  n !! "costAmount" = Some c →
  get_costs_per_interval_starts_dict E coll st =
  (Ok (upsert (db st !! (coll, costs_per_interval_starts_doc_name)) k c),
   {| db := db st; notification := VDict (stamped E n);
      trace := trace st ++ [DocGet coll costs_per_interval_starts_doc_name] |}).
Proof.
  intros Hn Hk Hc.
  assert (Hk' : stamped E n !! "costIntervalStart" = Some (VStr k))
    by (unfold stamped; rewrite lookup_insert_ne; done).
  assert (Hc' : stamped E n !! "costAmount" = Some c)
    by (unfold stamped; rewrite lookup_insert_ne; done).
  unfold get_costs_per_interval_starts_dict, document_to_dict, bind,
    get_notification, set_item, put_notification, emit, logged, get_db,
    subscript, as_str, ret, upsert.
  rewrite Hn. fold (stamped E n). cbn [notification db trace].
  rewrite Hk', Hc'.
  destruct (db st !! (coll, costs_per_interval_starts_doc_name)) as [costs|] eqn:Hf;
    cbn [from_option id].
  - destruct (truthy (VDict costs)) eqn:Ht.
    + reflexivity.
    + apply truthy_dict_empty in Ht. subst costs. by rewrite insert_empty.
  - by rewrite insert_empty.
Qed.

Lemma persist_data_run p ledger st record :
  notification st = VDict record →
  persist_data E (collection_of E p) ledger st =
  if commit_succeeds E then
    (Ok tt, {| db := apply_batch (db st) (batch_of E p ledger record);
               notification := VDict record;
               trace := trace st ++ [Commit (batch_of E p ledger record)] |})
  else
    (Err StoreError, {| db := db st; notification := VDict record;
                        trace := trace st ++ [Commit (batch_of E p ledger record)] |}).
Proof.
  intros Hn. unfold persist_data, bind, get_notification. rewrite Hn.
  unfold batch_commit, bind, emit, logged, get_db, put_db, raise, batch_of.
  destruct (commit_succeeds E); cbn [db notification trace]; by rewrite ?Hn.
Qed.

Lemma disable_billing_run p st :
  disable_billing_for_project E p st =
  (match unlink_response E p with
   | None => Err TypeError
   | Some info => match info !! "billingAccountName" with
                  | None => Ok tt
                  | Some _ => Err AssertionError
                  end
   end, logged st [unlink_request p]).
Proof.
  unfold disable_billing_for_project, projects_updateBillingInfo,
    unlink_response, bind, emit, ret.
  destruct (updateBillingInfo E _ _) as [info|]; [| reflexivity].
  destruct (info !! "billingAccountName"); reflexivity.
Qed.

Lemma handle_billing_run p budget t below st :
  lt_value t budget = Ok below →
  handle_billing_depending_on_total E p budget t st =
  if below then (Ok tt, logged st [LogNoAction t])
  else disable_billing_for_project E p (logged st [LogDisabling budget p]).
Proof.
  intros Hb. unfold handle_billing_depending_on_total, bind, py_lt.
  rewrite Hb. unfold ret. destruct below; reflexivity.
Qed.

Lemma handle_billing_raises p budget t e st :
  lt_value t budget = Err e →
  handle_billing_depending_on_total E p budget t st = (Err e, st).
Proof.
  intros Hb. unfold handle_billing_depending_on_total, bind, py_lt.
  by rewrite Hb.
Qed.

Lemma after_persist_run p budget ledger t st :
  sum_from (NInt 0) (values E ledger) = Ok t →
  after_persist E p budget ledger st =
  handle_billing_depending_on_total E p budget t (logged st [LogTotal t]).
Proof.
  intros Ht. unfold after_persist, bind at 1, py_sum. by rewrite Ht.
Qed.

Lemma after_persist_raises p budget ledger e st :
  sum_from (NInt 0) (values E ledger) = Err e →
  after_persist E p budget ledger st = (Err e, st).
Proof.
  intros Ht. unfold after_persist, bind at 1, py_sum. by rewrite Ht.
Qed.

(** What follows the persistence step adds to the trace and touches
    nothing else; what it adds is no call to the store. *)
Lemma after_persist_frame p budget ledger st :
  ∃ es, (after_persist E p budget ledger st).2 = logged st es ∧
        Forall (λ e, is_store_call e = false) es.
Proof.
  assert (Hnil : st = logged st [])
    by (destruct st; unfold logged; cbn; by rewrite app_nil_r).
  destruct (sum_from (NInt 0) (values E ledger)) as [t|e] eqn:Hsum;
    [| rewrite (after_persist_raises p budget ledger e st Hsum);
       exists []; split; [exact Hnil | constructor]].
  rewrite (after_persist_run p budget ledger t st Hsum).
  destruct (lt_value t budget) as [below|e] eqn:Hlt;
    [| rewrite (handle_billing_raises p budget t e _ Hlt);
       exists [LogTotal t]; split; [reflexivity | by repeat constructor]].
  rewrite (handle_billing_run p budget t below _ Hlt).
  destruct below.
  - exists [LogTotal t; LogNoAction t]. unfold logged. cbn.
    rewrite <- app_assoc. split; [reflexivity | by repeat constructor].
  - rewrite disable_billing_run.
    exists [LogTotal t; LogDisabling budget p; unlink_request p].
    unfold logged. cbn. rewrite <- !app_assoc.
    split; [reflexivity | by repeat constructor].
Qed.

Lemma db_after_persist p budget ledger st :
  db (after_persist E p budget ledger st).2 = db st.
Proof.
  destruct (after_persist_frame p budget ledger st) as (es & -> & _).
  reflexivity.
Qed.

Lemma apply_batch_ledger p ledger record d :
  auto_id E ≠ costs_per_interval_starts_doc_name →
  ledger_of E p (apply_batch d (batch_of E p ledger record)) = Some ledger.
Proof.
  intros Hid. unfold ledger_of, apply_batch, batch_of, apply_write. cbn.
  rewrite lookup_insert_ne by congruence. apply lookup_insert_eq.
Qed.

Lemma apply_batch_record p ledger record d :
  apply_batch d (batch_of E p ledger record) !! (collection_of E p, auto_id E)
  = Some record.
Proof.
  unfold apply_batch, batch_of, apply_write. cbn. apply lookup_insert_eq.
Qed.

End Helpers.

(** ** The handler, path by path *)

Section Paths.

Variable E : env.

(** A run on an event that carries a notification, as one expression. *)
Lemma run_carries data n p budget cost k d :
  carries E data n p budget cost k →
  run E data d =
  if negb (confirmed E p) then
    (Err (RuntimeError "Billing already in disabled state"),
     {| db := d; notification := VDict n; trace := entry_trace p budget cost k |})
  else if commit_succeeds E then
    after_persist E p budget (upsert (ledger_of E p d) k cost)
      (persisted E d n p budget cost k)
  else
    (Err StoreError,
     {| db := d; notification := VDict (stamped E n);
        trace := persist_trace E p budget cost k
                   (upsert (ledger_of E p d) k cost) (stamped E n) |}).
Proof.
  intros [(raw & Hraw & Hloads) Hp Hb Hc Hk].
  unfold run, handle_budgets_notifications.
  unfold bind at 1. unfold subscript at 1. rewrite Hraw. unfold ret at 1.
  rewrite Hloads.
  unfold bind at 1, put_notification at 1.
  unfold bind at 1, subscript at 1. rewrite Hp. unfold ret at 1.
  unfold bind at 1, subscript at 1. rewrite Hb. unfold ret at 1.
  unfold bind at 1, emit at 1. unfold bind at 1, emit at 1.
  unfold bind at 1, subscript at 1. rewrite Hc. unfold ret at 1.
  unfold bind at 1, subscript at 1. rewrite Hk. unfold ret at 1.
  unfold bind at 1, emit at 1.
  unfold bind at 1. rewrite get_collection_name_str.
  unfold bind at 1, as_str at 1, ret at 1.
  unfold bind at 1. rewrite is_billing_enabled_run.
  fold (confirmed E p). unfold logged. cbn [init db notification trace app].
  destruct (confirmed E p); cbn [negb]; [| reflexivity].
  unfold bind at 1.
  erewrite get_costs_run by (cbn [notification]; eauto).
  cbn [db notification trace]. fold (ledger_of E p d).
  unfold bind at 1, emit at 1, logged. cbn [db notification trace].
  unfold bind at 1.
  rewrite (persist_data_run E p _ _ (stamped E n)) by reflexivity.
  cbn [db notification trace].
  destruct (commit_succeeds E); reflexivity.
Qed.

(** The same for a notification that is processed. *)
Lemma run_processed data n p budget cost k d :
  carries E data n p budget cost k →
  confirmed E p = true →
  commit_succeeds E = true →
  run E data d =
  after_persist E p budget (upsert (ledger_of E p d) k cost)
    (persisted E d n p budget cost k).
Proof.
  intros Hcar Hconf Hcommit.
  rewrite (run_carries data n p budget cost k d Hcar), Hconf, Hcommit.
  reflexivity.
Qed.

(** The store a processed notification leaves. *)
Lemma run_processed_db data n p budget cost k d :
  carries E data n p budget cost k →
  confirmed E p = true →
  commit_succeeds E = true →
  db (run E data d).2 =
  apply_batch d (batch_of E p (upsert (ledger_of E p d) k cost) (stamped E n)).
Proof.
  intros Hcar Hconf Hcommit.
  rewrite (run_processed data n p budget cost k d Hcar Hconf Hcommit).
  by rewrite db_after_persist.
Qed.

End Paths.

(** ** Numbers *)

Lemma SFcompare_antisym x y :
  SFcompare y x = option_map CompOpp (SFcompare x y).
Proof.
  destruct x as [sx| sx | |sx mx ex], y as [sy| sy | |sy my ey]; cbn;
    try reflexivity;
    try (destruct sx; reflexivity); try (destruct sy; reflexivity);
    try (destruct sx, sy; reflexivity).
  destruct sx, sy; cbn; try reflexivity; f_equal;
    rewrite (Z.compare_antisym ex ey);
    destruct (ex ?= ey); cbn; try reflexivity.
  - f_equal. exact (Pos.compare_antisym mx my).
  - exact (Pos.compare_antisym mx my).
Qed.

(** On floats, [x >= y] excludes [x < y]. *)
Lemma float_leb_not_ltb x y :
  PrimFloat.leb y x = true → PrimFloat.ltb x y = false.
Proof.
  rewrite ltb_spec, leb_spec. unfold SFltb, SFleb.
  rewrite (SFcompare_antisym (Prim2SF x) (Prim2SF y)).
  destruct (SFcompare (Prim2SF x) (Prim2SF y)) as [[]|]; cbn; congruence.
Qed.

Lemma num_ge_not_lt a b : num_ge a b = true → num_lt a b = false.
Proof.
  destruct a as [m|x], b as [n|y]; cbn [num_ge num_lt].
  - intros H. apply Z.leb_le in H. apply Z.ltb_ge. exact H.
  - by destruct (int_cmp_float m y) as [[]|].
  - by destruct (int_cmp_float n x) as [[]|].
  - apply float_leb_not_ltb.
Qed.

Lemma ge_value_not_lt t budget :
  ge_value t budget = Ok true → lt_value t budget = Ok false.
Proof.
  unfold ge_value, lt_value. destruct (num_of budget) as [b|]; [| discriminate].
  intros [= H]. by rewrite (num_ge_not_lt t b H).
Qed.

(** Adding numbers raises nothing but [OverflowError]. *)
Lemma num_add_total a b :
  (∃ c, num_add a b = Ok c) ∨ num_add a b = Err OverflowError.
Proof.
  destruct a as [m|x], b as [n|y]; cbn [num_add]; eauto.
  - unfold float_of_int.
    destruct (binary_normalize prec emax m 0 false); eauto.
  - unfold float_of_int.
    destruct (binary_normalize prec emax n 0 false); eauto.
Qed.

(** ** Counting and summing *)

Lemma disable_calls_app tr1 tr2 :
  disable_calls (tr1 ++ tr2) = (disable_calls tr1 + disable_calls tr2)%nat.
Proof. unfold disable_calls. by rewrite filter_app, length_app. Qed.

Lemma filter_commit_none es :
  Forall (λ e, is_store_call e = false) es →
  filter (λ e, is_commit e = true) es = [].
Proof.
  induction 1 as [|e es He _ IH]; [reflexivity |].
  rewrite filter_cons, IH. destruct e; try discriminate He; reflexivity.
Qed.

Lemma sum_from_integral vs :
  Forall (λ v, is_Some (int_of v)) vs →
  ∀ acc, sum_from (NInt acc) vs
         = Ok (NInt (acc + foldr (λ v s, amount v + s) 0 vs)).
Proof.
  induction 1 as [|v vs [n Hn] _ IH]; intros acc; cbn [sum_from foldr].
  - do 2 f_equal. lia.
  - assert (Hnum : num_of v = Some (NInt n))
      by (destruct v; try discriminate Hn; cbn in *; congruence).
    rewrite Hnum. cbn [num_add]. rewrite IH. unfold amount. rewrite Hn. cbn.
    do 2 f_equal. lia.
Qed.

Lemma amounts_permutation vs vs' :
  vs ≡ₚ vs' →
  foldr (λ v s, amount v + s) 0 vs = foldr (λ v s, amount v + s) 0 vs'.
Proof.
  induction 1 as [| x l l' _ IH | x y l | l l' l'' _ IH1 _ IH2]; cbn [foldr].
  - reflexivity.
  - by rewrite IH.
  - lia.
  - by rewrite IH1.
Qed.

Lemma values_permutation E (m : dict) : values E m ≡ₚ (map_to_list m).*2.
Proof. unfold values. by rewrite (items_order_all E m). Qed.

Lemma integral_values E (m : dict) :
  integral m → Forall (λ v, is_Some (int_of v)) (values E m).
Proof.
  intros Hm. rewrite (values_permutation E m).
  apply map_Forall_to_list in Hm.
  induction Hm as [|[k v] l Hv _ IH]; constructor; assumption.
Qed.

(** Python's [sum] over the values of a ledger of ints is the ledger's
    total, whatever the order of iteration. *)
Lemma sum_values_total E (m : dict) :
  integral m → sum_from (NInt 0) (values E m) = Ok (NInt (ledger_total m)).
Proof.
  intros Hm. rewrite (sum_from_integral _ (integral_values E m Hm)).
  do 2 f_equal. rewrite Z.add_0_l, (amounts_permutation _ _ (values_permutation E m)).
  unfold ledger_total. rewrite map_fold_foldr.
  induction (map_to_list m) as [|[k v] l IH]; [reflexivity |].
  cbn. by rewrite IH.
Qed.

Lemma numeric_values E (m : dict) :
  numeric m → Forall (λ v, is_Some (num_of v)) (values E m).
Proof.
  intros Hm. rewrite (values_permutation E m).
  apply map_Forall_to_list in Hm.
  induction Hm as [|[k v] l Hv _ IH]; constructor; assumption.
Qed.

(** Over numbers, [sum] returns a total unless an int is too large for
    the float it meets. *)
Lemma sum_from_numbers vs :
  Forall (λ v, is_Some (num_of v)) vs →
  ∀ acc, (∃ t, sum_from acc vs = Ok t) ∨ sum_from acc vs = Err OverflowError.
Proof.
  induction 1 as [|v vs [n Hn] _ IH]; intros acc; cbn [sum_from]; [eauto |].
  rewrite Hn. destruct (num_add_total acc n) as [[c ->] | ->]; [apply IH | by right].
Qed.

Lemma value_in_values E (m : dict) k v : m !! k = Some v → v ∈ values E m.
Proof.
  intros Hk. rewrite (values_permutation E m).
  apply list_elem_of_fmap. exists (k, v).
  split; [reflexivity |]. by apply elem_of_map_to_list.
Qed.

(** A value that is not a number makes [sum] raise: [TypeError] when
    the sum gets to it, [OverflowError] when an int too large for a float
    comes first. *)
Lemma sum_from_non_number vs v :
  v ∈ vs → num_of v = None →
  ∀ acc, sum_from acc vs = Err TypeError ∨ sum_from acc vs = Err OverflowError.
Proof.
  intros Hin Hv. induction Hin as [v vs | v w vs _ IH]; intros acc; cbn [sum_from].
  - rewrite Hv. by left.
  - destruct (num_of w) as [n|]; [| by left].
    destruct (num_add_total acc n) as [[c ->] | ->]; [apply IH, Hv | by right].
Qed.

Lemma sum_from_non_number_ints vs v :
  v ∈ vs → num_of v = None → float_free vs →
  ∀ a, sum_from (NInt a) vs = Err TypeError.
Proof.
  intros Hin Hv. induction Hin as [v vs | v w vs _ IH]; intros Hfree a;
    cbn [sum_from]; apply Forall_cons in Hfree as [Hw Hfree].
  - by rewrite Hv.
  - destruct w; try reflexivity; cbn [num_of num_add].
    + by apply IH.
    + by apply IH.
    + by destruct (Hw x).
Qed.

(** Without floats the order of the values does not matter to [sum]. *)
Lemma sum_from_permutation vs vs' :
  vs ≡ₚ vs' → float_free vs →
  ∀ a, sum_from (NInt a) vs = sum_from (NInt a) vs'.
Proof.
  induction 1 as [| x l l' Hperm IH | x y l | l l' l'' Hperm1 IH1 Hperm2 IH2];
    intros Hfree a.
  - reflexivity.
  - apply Forall_cons in Hfree as [Hx Hfree]. cbn [sum_from].
    destruct x; try reflexivity; cbn [num_of num_add]; try by apply IH.
    by destruct (Hx x).
  - apply Forall_cons in Hfree as [Hy Hfree].
    apply Forall_cons in Hfree as [Hx _]. cbn [sum_from].
    destruct x as [| | |fx| | |]; try (by destruct (Hx fx));
      destruct y as [| | |fy| | |]; try (by destruct (Hy fy));
      cbn [num_of num_add]; try reflexivity;
      match goal with
      | |- sum_from (NInt ?u) _ = sum_from (NInt ?w) _ =>
          replace u with w by lia; reflexivity
      | _ => idtac
      end.
  - rewrite IH1 by exact Hfree. apply IH2.
    unfold float_free. by rewrite <- Hperm1.
Qed.

Lemma ledger_total_insert (m : dict) k c :
  ledger_total (<[k := c]> m) = amount c + ledger_total (delete k m).
Proof.
  rewrite <- (insert_delete_eq m k c). unfold ledger_total.
  rewrite map_fold_insert_L; [reflexivity | | apply lookup_delete_eq].
  intros. lia.
Qed.

(** ** Sequences of notifications *)

Lemma record_costs_last notes :
  ∀ (m : dict) (before : list (string * value)) k c later,
    notes = before ++ (k, c) :: later → k ∉ later.*1 →
    foldl record_cost m notes !! k = Some c.
Proof.
  intros m before k c later -> Hlater.
  rewrite foldl_app. cbn [foldl].
  generalize (foldl record_cost m before). intros m'.
  assert (Hk : record_cost m' (k, c) !! k = Some c)
    by apply lookup_insert_eq.
  revert Hk. generalize (record_cost m' (k, c)). clear m'.
  induction later as [|[k' c'] later IH]; intros m' Hk; [exact Hk |].
  cbn [foldl]. apply IH.
  - intros Hin. apply Hlater. cbn. by right.
  - unfold record_cost. cbn [fst snd]. rewrite lookup_insert_ne; [exact Hk |].
    intros ->. apply Hlater. cbn. by left.
Qed.

Lemma record_costs_unseen notes :
  ∀ (m : dict) k, k ∉ notes.*1 → foldl record_cost m notes !! k = m !! k.
Proof.
  induction notes as [|[k' c'] notes IH]; intros m k Hk; [reflexivity |].
  cbn [foldl]. rewrite IH.
  - unfold record_cost. cbn [fst snd]. apply lookup_insert_ne.
    intros ->. apply Hk. cbn. by left.
  - intros Hin. apply Hk. cbn. by right.
Qed.

(** The ledger after a sequence of processed notifications is the
    ledger before with their costs recorded in order. *)
Lemma deliver_ledger coll p invs notes :
  Forall2 (processed_for coll p) invs notes →
  ∀ d,
    default ∅ (deliver invs d !! (coll, costs_per_interval_starts_doc_name)) =
    foldl record_cost
      (default ∅ (d !! (coll, costs_per_interval_starts_doc_name))) notes
    ∧ (notes ≠ [] →
       is_Some (deliver invs d !! (coll, costs_per_interval_starts_doc_name))).
Proof.
  induction 1 as [|[E data] [k c] invs notes Hp Hrest IH]; intros d.
  - split; [reflexivity | congruence].
  - destruct Hp as (n & budget & Hcar & Hconf & Hcommit & Hid & Hcoll).
    cbn [fst snd] in *. cbn [deliver foldl].
    assert (Hstep : db (run E data d).2 !! (coll, costs_per_interval_starts_doc_name)
                    = Some (record_cost
                        (default ∅ (d !! (coll, costs_per_interval_starts_doc_name)))
                        (k, c))).
    { rewrite (run_processed_db E data n p budget c k d Hcar Hconf Hcommit).
      rewrite <- Hcoll. apply (apply_batch_ledger E p _ _ d Hid). }
    destruct (IH (db (run E data d).2)) as [IH1 IH2].
    rewrite Hstep in IH1. cbn [from_option id] in IH1. split; [exact IH1 |].
    intros _. destruct notes as [|note notes].
    + inversion Hrest. subst. cbn [deliver]. rewrite Hstep. by eexists.
    + apply IH2. congruence.
Qed.

(** ** The scenarios *)

Lemma ex_ledger_of budget cost interval :
  ledger_of (ex_processing budget cost interval) "p1" ex_store
  = Some {[ "2024-01" := VInt 70 ]}.
Proof. reflexivity. Qed.

Lemma ex_deliveries_processed :
  Forall2 (processed_for "budget-notifications-p1" "p1") ex_deliveries ex_notes.
Proof.
  repeat constructor.
  - exists (ex_note 100 40 "2024-01"), (VInt 100).
    split; [carries_note | by repeat split].
  - exists (ex_note 100 70 "2024-01"), (VInt 100).
    split; [carries_note | by repeat split].
  - exists (ex_note 100 30 "2024-02"), (VInt 100).
    split; [carries_note | by repeat split].
Defined.

(** ** Properties of the handler *)

(** C1. A notification that is processed (it carries the fields, billing
    is confirmed enabled, the batch commits and the ledger sums to the
    number [t], an int or a float): when [t < budgetAmount] the run never
    asks to disable billing; when [t >= budgetAmount], equality included,
    it asks exactly once, as the last thing it does.  The code asks
    whenever [t < budgetAmount] is false. *)
Theorem disable_iff_total_reaches_budget E data n p budget cost k d t :
  carries E data n p budget cost k →
  confirmed E p = true →
  commit_succeeds E = true →
  sum_from (NInt 0) (values E (upsert (ledger_of E p d) k cost)) = Ok t →
  (lt_value t budget = Ok true →
     disable_calls (trace (run E data d).2) = 0%nat) ∧
  (ge_value t budget = Ok true →
     disable_calls (trace (run E data d).2) = 1%nat ∧
     last (trace (run E data d).2) = Some (unlink_request p)) ∧
  (lt_value t budget = Ok false →
     disable_calls (trace (run E data d).2) = 1%nat ∧
     last (trace (run E data d).2) = Some (unlink_request p)).
Proof.
  intros Hcar Hconf Hcommit Hsum.
  rewrite (run_processed E data n p budget cost k d Hcar Hconf Hcommit).
  rewrite (after_persist_run E p budget _ t _ Hsum).
  assert (Hasks : lt_value t budget = Ok false →
    disable_calls
      (trace (handle_billing_depending_on_total E p budget t
                (logged (persisted E d n p budget cost k) [LogTotal t])).2) = 1%nat ∧
    last (trace (handle_billing_depending_on_total E p budget t
                   (logged (persisted E d n p budget cost k) [LogTotal t])).2)
    = Some (unlink_request p)).
  { intros Hcmp. rewrite (handle_billing_run E p budget t false _ Hcmp).
    rewrite disable_billing_run. cbn [snd logged trace]. split; [| apply last_snoc].
    rewrite !disable_calls_app. reflexivity. }
  split; [| split].
  - intros Hcmp. rewrite (handle_billing_run E p budget t true _ Hcmp).
    reflexivity.
  - intros Hcmp. apply Hasks, ge_value_not_lt, Hcmp.
  - exact Hasks.
Qed.

Lemma disable_iff_total_reaches_budget_witness :
  disable_calls (trace (run (ex_pricing 100.5 30.25 "2024-02") ex_event ex_priced_store).2)
  = 1%nat.
Proof.
  refine (proj1 (proj1 (proj2 (disable_iff_total_reaches_budget
            (ex_pricing 100.5 30.25 "2024-02") ex_event (ex_priced 100.5 30.25 "2024-02")
            "p1" (VFloat 100.5) (VFloat 30.25) "2024-02" ex_priced_store (NFloat 100.5)
            _ _ _ _)) _)).
  - carries_note.
  - reflexivity.
  - reflexivity.
  - vm_compute. reflexivity.
  - vm_compute. reflexivity.
Defined.

(** C2. Last write wins per interval.  The ledger step returns the
    fetched ledger (the empty one when there is none) with the entry at
    the notification's interval set to its cost; and after any sequence of
    notifications processed for a project, the project's ledger holds, for
    every interval seen, the cost of the most recent notification carrying
    it, and for every other interval what it held before. *)
Theorem ledger_last_write_wins :
  (∀ E coll st n k c,
     notification st = VDict n →
     n !! "costIntervalStart" = Some (VStr k) →
     n !! "costAmount" = Some c →
     (get_costs_per_interval_starts_dict E coll st).1 =
     Ok (<[k := c]>
           (default ∅ (db st !! (coll, costs_per_interval_starts_doc_name))))) ∧
  (∀ coll p invs notes d,
     Forall2 (processed_for coll p) invs notes →
     notes ≠ [] →
     ∃ ledger,
       deliver invs d !! (coll, costs_per_interval_starts_doc_name) = Some ledger ∧
       (∀ (before : list (string * value)) k c later,
          notes = before ++ (k, c) :: later → k ∉ later.*1 →
          ledger !! k = Some c) ∧
       (∀ k, k ∉ notes.*1 →
          ledger !! k =
          default ∅ (d !! (coll, costs_per_interval_starts_doc_name)) !! k)).
Proof.
  split.
  - intros E coll st n k c Hn Hk Hc.
    by rewrite (get_costs_run E coll st n k c Hn Hk Hc).
  - intros coll p invs notes d Hall Hne.
    destruct (deliver_ledger coll p invs notes Hall d) as [Hfold Hsome].
    destruct (Hsome Hne) as [ledger Hl]. exists ledger.
    rewrite Hl in Hfold. cbn [from_option id] in Hfold. subst ledger.
    split; [exact Hl |]. split.
    + intros before k c later Hsplit Hlater.
      by apply (record_costs_last notes _ before k c later).
    + intros k Hk. by apply record_costs_unseen.
Qed.

Lemma ledger_last_write_wins_witness :
  ∃ ledger,
    deliver ex_deliveries ∅ !! ("budget-notifications-p1", "0-costs-per-interval-starts")
    = Some ledger ∧
    ledger !! "2024-01" = Some (VInt 70) ∧
    ledger !! "2024-02" = Some (VInt 30) ∧
    ledger !! "2024-03" = None.
Proof.
  destruct (proj2 ledger_last_write_wins "budget-notifications-p1" "p1"
              ex_deliveries ex_notes ∅ ex_deliveries_processed)
    as (ledger & Hledger & Hlast & Hunseen); [discriminate |].
  exists ledger. split; [exact Hledger |]. split; [| split].
  - apply (Hlast [("2024-01", VInt 40)] "2024-01" (VInt 70) [("2024-02", VInt 30)]).
    + reflexivity.
    + cbn. rewrite list_elem_of_singleton. discriminate.
  - apply (Hlast [("2024-01", VInt 40); ("2024-01", VInt 70)] "2024-02" (VInt 30) []).
    + reflexivity.
    + apply not_elem_of_nil.
  - rewrite Hunseen; [reflexivity |].
    cbn. rewrite !elem_of_cons, elem_of_nil.
    intros [H | [H | [H | []]]]; discriminate H.
Defined.

(** C3. For a processed notification, the total that is logged and
    handed to the budget comparison is what [sum] returns over the values
    of the ledger just persisted: one summand for every interval the
    ledger holds, the notification's own with its cost and every interval
    recorded earlier with its stored cost, added from left to right in
    the order the dict yields them.  Over numbers [sum] does return,
    unless an int is too large for a float it is added to; over ints the
    total is exact: the cost of the notification's interval plus the
    total of all the other intervals. *)
Theorem total_is_sum_of_ledger E data n p budget cost k d :
  carries E data n p budget cost k →
  confirmed E p = true →
  commit_succeeds E = true →
  auto_id E ≠ costs_per_interval_starts_doc_name →
  ∃ ledger,
    ledger_of E p (db (run E data d).2) = Some ledger ∧
    ledger !! k = Some cost ∧
    (∀ k', k' ≠ k → ledger !! k' = default ∅ (ledger_of E p d) !! k') ∧
    values E ledger ≡ₚ (map_to_list ledger).*2 ∧
    (∀ t, sum_from (NInt 0) (values E ledger) = Ok t →
          run E data d =
            handle_billing_depending_on_total E p budget t
              (logged (persisted E d n p budget cost k) [LogTotal t])) ∧
    (numeric ledger →
       (∃ t, sum_from (NInt 0) (values E ledger) = Ok t) ∨
       sum_from (NInt 0) (values E ledger) = Err OverflowError) ∧
    (integral ledger →
       sum_from (NInt 0) (values E ledger) = Ok (NInt (ledger_total ledger)) ∧
       ledger_total ledger =
         amount cost + ledger_total (delete k (default ∅ (ledger_of E p d)))).
Proof.
  intros Hcar Hconf Hcommit Hid.
  exists (upsert (ledger_of E p d) k cost).
  split; [| split; [| split; [| split; [| split; [| split]]]]].
  - rewrite (run_processed_db E data n p budget cost k d Hcar Hconf Hcommit).
    by apply apply_batch_ledger.
  - apply lookup_insert_eq.
  - intros k' Hk'. unfold upsert. by rewrite lookup_insert_ne.
  - apply values_permutation.
  - intros t Hsum.
    rewrite (run_processed E data n p budget cost k d Hcar Hconf Hcommit).
    by apply after_persist_run.
  - intros Hnum. apply sum_from_numbers. by apply numeric_values.
  - intros Hint. split; [by apply sum_values_total | apply ledger_total_insert].
Qed.

Lemma total_is_sum_of_ledger_witness :
  ∃ ledger,
    ledger_of (ex_pricing 100.5 30.25 "2024-02") "p1"
      (db (run (ex_pricing 100.5 30.25 "2024-02") ex_event ex_priced_store).2)
    = Some ledger ∧
    sum_from (NInt 0) (values (ex_pricing 100.5 30.25 "2024-02") ledger) =
    Ok (NFloat 100.5).
Proof.
  destruct (total_is_sum_of_ledger (ex_pricing 100.5 30.25 "2024-02") ex_event
              (ex_priced 100.5 30.25 "2024-02") "p1" (VFloat 100.5) (VFloat 30.25)
              "2024-02" ex_priced_store)
    as (ledger & Hledger & _).
  - carries_note.
  - reflexivity.
  - reflexivity.
  - discriminate.
  - exists ledger. split; [exact Hledger |].
    assert (Hwhich : Some ledger
                     = Some {[ "2024-01" := VFloat 70.25; "2024-02" := VFloat 30.25 ]})
      by (rewrite <- Hledger; vm_compute; reflexivity).
    injection Hwhich as ->. vm_compute. reflexivity.
Defined.

(** C4. A notification whose billing-status check does not confirm
    billing enabled: the handler raises [RuntimeError('Billing already in
    disabled state')] right after the check; the store is as it was, the
    notification object has not been stamped, and the run made no call to
    the store, neither a read nor a commit. *)
Theorem not_confirmed_raises_before_store E data n p budget cost k d :
  carries E data n p budget cost k →
  confirmed E p = false →
  run E data d =
    (Err (RuntimeError "Billing already in disabled state"),
     {| db := d; notification := VDict n; trace := entry_trace p budget cost k |}) ∧
  Forall (λ e, is_store_call e = false) (trace (run E data d).2).
Proof.
  intros Hcar Hconf.
  rewrite (run_carries E data n p budget cost k d Hcar), Hconf.
  split; [reflexivity |]. by repeat constructor.
Qed.

Lemma not_confirmed_raises_before_store_witness :
  run (ex_not_confirmed 100 40 "2024-01") ex_event ex_store
  = (Err (RuntimeError "Billing already in disabled state"),
     {| db := ex_store; notification := VDict (ex_note 100 40 "2024-01");
        trace := entry_trace "p1" (VInt 100) (VInt 40) "2024-01" |}).
Proof.
  refine (proj1 (not_confirmed_raises_before_store
            (ex_not_confirmed 100 40 "2024-01") ex_event (ex_note 100 40 "2024-01")
            "p1" (VInt 100) (VInt 40) "2024-01" ex_store _ _)).
  - carries_note.
  - reflexivity.
Defined.

(** C5. A notification that reaches the persistence step: the run
    submits the ledger document and the audit record in one batch and
    commits once, and writes the store in no other way.  When the commit
    goes through the store holds both writes; when it does not, the run
    raises and the store is as it was, so neither write is applied. *)
Theorem ledger_and_record_commit_together E data n p budget cost k d :
  carries E data n p budget cost k →
  confirmed E p = true →
  let ledger := upsert (ledger_of E p d) k cost in
  let ledger_write :=
    MkWrite (collection_of E p) costs_per_interval_starts_doc_name ledger in
  let record_write :=
    MkWrite (collection_of E p) (auto_id E) (stamped E n) in
  filter (λ e, is_commit e = true) (trace (run E data d).2)
    = [Commit [ledger_write; record_write]] ∧
  (commit_succeeds E = true →
     db (run E data d).2 = apply_write (apply_write d ledger_write) record_write ∧
     db (run E data d).2 !! (collection_of E p, auto_id E) = Some (stamped E n) ∧
     (auto_id E ≠ costs_per_interval_starts_doc_name →
      ledger_of E p (db (run E data d).2) = Some ledger)) ∧
  (commit_succeeds E = false →
     (run E data d).1 = Err StoreError ∧ db (run E data d).2 = d).
Proof.
  intros Hcar Hconf. cbn zeta.
  rewrite (run_carries E data n p budget cost k d Hcar), Hconf.
  cbn [negb].
  destruct (commit_succeeds E) eqn:Hcommit.
  - split; [| split; [| discriminate]].
    + destruct (after_persist_frame E p budget (upsert (ledger_of E p d) k cost)
                  (persisted E d n p budget cost k)) as (es & -> & Hes).
      cbn [snd logged trace persisted]. unfold persist_trace.
      rewrite !filter_app, (filter_commit_none es Hes). reflexivity.
    + intros _. rewrite db_after_persist. cbn [db persisted].
      split; [reflexivity |]. split.
      * apply apply_batch_record.
      * intros Hid. by apply apply_batch_ledger.
  - split; [reflexivity |]. split; [discriminate | by split].
Qed.

Lemma ledger_and_record_commit_together_witness :
  (run (ex_store_down 100 40 "2024-01") ex_event ex_store).1 = Err StoreError ∧
  db (run (ex_store_down 100 40 "2024-01") ex_event ex_store).2 = ex_store.
Proof.
  refine (proj2 (proj2 (ledger_and_record_commit_together
            (ex_store_down 100 40 "2024-01") ex_event (ex_note 100 40 "2024-01")
            "p1" (VInt 100) (VInt 40) "2024-01" ex_store _ _)) _).
  - carries_note.
  - reflexivity.
  - reflexivity.
Defined.

(** C6. [__is_billing_enabled] asks the API once and returns the
    [billingEnabled] flag the billing info reports, and [False] when the
    info is absent, empty or has no such flag: unknown and disabled are
    told apart by nothing. *)
Theorem is_billing_enabled_reported E p st :
  is_billing_enabled E p st =
    (Ok (reported_enabled (getBillingInfo E ("projects/" +:+ p))),
     logged st [GetBillingInfo ("projects/" +:+ p)]) ∧
  reported_enabled None = VBool false ∧
  reported_enabled (Some ∅) = VBool false ∧
  (∀ info, info !! "billingEnabled" = None →
           reported_enabled (Some info) = VBool false) ∧
  (∀ info b, info !! "billingEnabled" = Some (VBool b) →
             reported_enabled (Some info) = VBool b).
Proof.
  split; [| split; [| split; [| split]]].
  - rewrite is_billing_enabled_run. f_equal. f_equal.
    unfold billing_enabled_of, reported_enabled.
    destruct (getBillingInfo E _) as [info|]; [| reflexivity].
    destruct (truthy (VDict info)) eqn:Ht; cbn [negb]; [reflexivity |].
    apply truthy_dict_empty in Ht. subst info. reflexivity.
  - reflexivity.
  - reflexivity.
  - intros info Hi. cbn. by rewrite Hi.
  - intros info b Hi. cbn. by rewrite Hi.
Qed.

Lemma is_billing_enabled_reported_witness :
  reported_enabled (Some {[ "projectId" := VStr "p1"; "billingEnabled" := VBool false ]})
  = VBool false.
Proof.
  refine (proj2 (proj2 (proj2 (proj2
            (is_billing_enabled_reported (ex_processing 100 40 "2024-01") "p1" (init ∅)))))
            {[ "projectId" := VStr "p1"; "billingEnabled" := VBool false ]} false _).
  reflexivity.
Defined.

(** C7. [__disable_billing_for_project] returns normally exactly when
    the answer to the update call has no [billingAccountName]; an answer
    that still names an account raises [AssertionError].  The handler does
    not catch it: a run that reaches the disabling step (its total, an
    int or a float, is not below the budget) ends normally exactly when
    the post-condition was observed. *)
Theorem disable_billing_asserts_unlinked E p :
  (∀ st, (disable_billing_for_project E p st).1 = Ok tt ↔
         unlinked (unlink_response E p)) ∧
  (∀ st info, unlink_response E p = Some info →
              is_Some (info !! "billingAccountName") →
              (disable_billing_for_project E p st).1 = Err AssertionError) ∧
  (∀ data n budget cost k d t,
     carries E data n p budget cost k →
     confirmed E p = true →
     commit_succeeds E = true →
     sum_from (NInt 0) (values E (upsert (ledger_of E p d) k cost)) = Ok t →
     lt_value t budget = Ok false →
     ((run E data d).1 = Ok tt ↔ unlinked (unlink_response E p))).
Proof.
  assert (Hfn : ∀ st, (disable_billing_for_project E p st).1 = Ok tt ↔
                      unlinked (unlink_response E p)).
  { intros st. rewrite disable_billing_run. cbn [fst]. unfold unlinked.
    destruct (unlink_response E p) as [info|].
    - destruct (info !! "billingAccountName") eqn:Hi.
      + split; [discriminate |]. intros (i & [= <-] & Hi'). congruence.
      + split; [eauto | reflexivity].
    - split; [discriminate |]. by intros (i & [=] & _). }
  split; [exact Hfn |]. split.
  - intros st info Hr [a Ha]. rewrite disable_billing_run, Hr, Ha. reflexivity.
  - intros data n budget cost k d t Hcar Hconf Hcommit Hsum Hlt.
    rewrite (run_processed E data n p budget cost k d Hcar Hconf Hcommit).
    rewrite (after_persist_run E p budget _ t _ Hsum).
    rewrite (handle_billing_run E p budget t false _ Hlt).
    apply Hfn.
Qed.

Lemma disable_billing_asserts_unlinked_witness :
  (disable_billing_for_project (ex_not_unlinking 100 30 "2024-02") "p1"
     (init ex_store)).1
  = Err AssertionError.
Proof.
  refine (proj1 (proj2 (disable_billing_asserts_unlinked
            (ex_not_unlinking 100 30 "2024-02") "p1"))
            (init ex_store)
            {[ "projectId" := VStr "p1";
               "billingAccountName" := VStr "billingAccounts/0X0X0X" ]} _ _).
  - reflexivity.
  - by eexists.
Defined.

(** C8. An event whose payload is absent or does not decode, or whose
    notification lacks one of the fields the handler reads, makes the run
    raise a decoding, key or type error before it calls any service: the
    store is as it was and the trace holds log lines only, so there is no
    billing call, no ledger read or write and no audit record. *)
Theorem malformed_raises_before_any_call E data d :
  malformed E data →
  ∃ e, (run E data d).1 = Err e ∧
       malformed_input e = true ∧
       db (run E data d).2 = d ∧
       Forall (λ ev, is_log ev = true) (trace (run E data d).2).
Proof.
  intros Hbad.
  enough (∃ e nt tr,
            run E data d = (Err e, {| db := d; notification := nt; trace := tr |}) ∧
            malformed_input e = true ∧
            Forall (λ ev, is_log ev = true) tr)
    as (e & nt & tr & -> & He & Htr) by (exists e; done).
  destruct Hbad as [Hraw | raw Hraw Hloads | raw v f Hraw Hloads Hf Hnone];
    unfold run, handle_budgets_notifications;
    unfold bind at 1; unfold subscript at 1; rewrite Hraw.
  - raised_with (KeyError "data").
  - unfold ret at 1. rewrite Hloads. raised_with DecodeError.
  - unfold ret at 1. rewrite Hloads.
    unfold bind at 1, put_notification at 1.
    destruct v as [| | | | | |n]; try raised_with TypeError.
    cbn [field] in Hnone.
    unfold bind at 1, subscript at 1.
    destruct (n !! "budgetDisplayName") as [project|] eqn:H1;
      [| raised_with (KeyError "budgetDisplayName")].
    unfold ret at 1, bind at 1, subscript at 1.
    destruct (n !! "budgetAmount") as [budget|] eqn:H2;
      [| raised_with (KeyError "budgetAmount")].
    unfold ret at 1, bind at 1, emit at 1, bind at 1, emit at 1.
    unfold bind at 1, subscript at 1.
    destruct (n !! "costAmount") as [cost|] eqn:H3;
      [| raised_with (KeyError "costAmount")].
    unfold ret at 1, bind at 1, subscript at 1.
    destruct (n !! "costIntervalStart") as [interval|] eqn:H4;
      [| raised_with (KeyError "costIntervalStart")].
    exfalso. unfold required_fields in Hf.
    repeat (apply elem_of_cons in Hf as [-> | Hf]; [congruence |]).
    by apply elem_of_nil in Hf.
Qed.

Lemma malformed_raises_before_any_call_witness :
  ∃ e, (run (ex_world (Some (VDict ex_truncated)) ex_enabled ex_unlinked true)
            ex_event ex_store).1 = Err e ∧
       malformed_input e = true ∧
       db (run (ex_world (Some (VDict ex_truncated)) ex_enabled ex_unlinked true)
               ex_event ex_store).2 = ex_store ∧
       Forall (λ ev, is_log ev = true)
         (trace (run (ex_world (Some (VDict ex_truncated)) ex_enabled ex_unlinked true)
                     ex_event ex_store).2).
Proof.
  apply malformed_raises_before_any_call.
  apply (Malformed_missing _ _ (VStr "eyJidWRnZXQiOiAuLi59") (VDict ex_truncated)
           "costIntervalStart").
  - reflexivity.
  - reflexivity.
  - unfold required_fields. rewrite !elem_of_cons. tauto.
  - reflexivity.
Defined.

(** C9 as stated fails on a payload that already carries an [addedAt]:
    the audit record does not keep the value it came with. *)
Lemma audit_record_replaces_payload_addedAt :
  ∃ record,
    db (run (ex_world (Some (VDict ex_restamped)) ex_enabled ex_unlinked true)
            ex_event ∅).2
      !! ("budget-notifications-p1", "Zk3mQ0a9TnX2bL7wRsUe") = Some record ∧
    ¬ stored_unchanged ex_restamped record.
Proof.
  eexists. split; [vm_compute; reflexivity |].
  intros Hkeep.
  specialize (Hkeep "addedAt" (VStr "2023-12-31T23:59:59") eq_refl).
  vm_compute in Hkeep. discriminate Hkeep.
Qed.

(** C9, as amended. The audit record a processed notification leaves
    under the generated id is the decoded payload with [addedAt] set to
    the handler's time stamp: every field other than [addedAt] is stored
    as it came, [addedAt] holds the stamp (replacing one the payload may
    carry), and no other field is added or removed. *)
Theorem audit_record_is_stamped_payload E data n p budget cost k d :
  carries E data n p budget cost k →
  confirmed E p = true →
  commit_succeeds E = true →
  ∃ record,
    db (run E data d).2 !! (collection_of E p, auto_id E) = Some record ∧
    record = <["addedAt" := VStr (now_isoformat E)]> n ∧
    (∀ f, f ≠ "addedAt" → record !! f = n !! f) ∧
    record !! "addedAt" = Some (VStr (now_isoformat E)) ∧
    dom record = dom n ∪ {["addedAt"]} ∧
    (n !! "addedAt" = None → stored_unchanged n record).
Proof.
  intros Hcar Hconf Hcommit. exists (stamped E n).
  rewrite (run_processed_db E data n p budget cost k d Hcar Hconf Hcommit).
  split; [apply apply_batch_record |]. split; [reflexivity |].
  unfold stamped. split; [| split; [| split]].
  - intros f Hf. by rewrite lookup_insert_ne.
  - apply lookup_insert_eq.
  - rewrite dom_insert_L. set_solver.
  - intros Hnone f v Hv. rewrite lookup_insert_ne; [exact Hv | congruence].
Qed.

Lemma audit_record_is_stamped_payload_witness :
  ∃ record,
    db (run (ex_processing 100 40 "2024-01") ex_event ∅).2
      !! ("budget-notifications-p1", "Zk3mQ0a9TnX2bL7wRsUe") = Some record ∧
    record !! "addedAt" = Some (VStr "2024-02-03T10:00:00.000000") ∧
    record !! "costAmount" = Some (VInt 40).
Proof.
  destruct (audit_record_is_stamped_payload (ex_processing 100 40 "2024-01") ex_event
              (ex_note 100 40 "2024-01") "p1" (VInt 100) (VInt 40) "2024-01" ∅)
    as (record & Hrecord & _ & Hframe & Hstamp & _).
  - carries_note.
  - reflexivity.
  - reflexivity.
  - exists record. split; [exact Hrecord |]. split; [exact Hstamp |].
    rewrite Hframe by discriminate. reflexivity.
Defined.

(** C10. The ledger a processed notification persists has the keys of
    the fetched ledger (none when there was no ledger) and the
    notification's interval, and no others: no key is lost, the interval
    is there, and the ledger is not empty. *)
Theorem ledger_keys_grow E data n p budget cost k d :
  carries E data n p budget cost k →
  confirmed E p = true →
  commit_succeeds E = true →
  auto_id E ≠ costs_per_interval_starts_doc_name →
  ∃ ledger,
    ledger_of E p (db (run E data d).2) = Some ledger ∧
    dom ledger = dom (default ∅ (ledger_of E p d)) ∪ {[k]} ∧
    dom (default ∅ (ledger_of E p d)) ⊆ dom ledger ∧
    k ∈ dom ledger ∧
    ledger ≠ ∅.
Proof.
  intros Hcar Hconf Hcommit Hid. exists (upsert (ledger_of E p d) k cost).
  rewrite (run_processed_db E data n p budget cost k d Hcar Hconf Hcommit).
  split; [by apply apply_batch_ledger |].
  unfold upsert. rewrite dom_insert_L.
  split; [set_solver |]. split; [set_solver |]. split; [set_solver |].
  apply insert_non_empty.
Qed.

Lemma ledger_keys_grow_witness :
  ∃ ledger,
    ledger_of (ex_processing 100 30 "2024-02") "p1"
      (db (run (ex_processing 100 30 "2024-02") ex_event ex_store).2) = Some ledger ∧
    dom ledger = {[ "2024-01" ]} ∪ {[ "2024-02" ]}.
Proof.
  destruct (ledger_keys_grow (ex_processing 100 30 "2024-02") ex_event
              (ex_note 100 30 "2024-02") "p1" (VInt 100) (VInt 30) "2024-02" ex_store)
    as (ledger & Hledger & Hdom & _).
  - carries_note.
  - reflexivity.
  - reflexivity.
  - discriminate.
  - exists ledger. split; [exact Hledger |].
    rewrite Hdom, ex_ledger_of. cbn [from_option id].
    by rewrite dom_singleton_L.
Defined.

(** ** Every run *)

Section Runs.

Variable E : env.

(** A run once the four fields have been read. *)
Lemma run_fields data raw n project budget cost interval d :
  data !! "data" = Some raw →
  loads_b64 E raw = Some (VDict n) →
  n !! "budgetDisplayName" = Some project →
  n !! "budgetAmount" = Some budget →
  n !! "costAmount" = Some cost →
  n !! "costIntervalStart" = Some interval →
  run E data d =
  (collection_name <- get_collection_name E project ;;
   project_id <- as_str project ;;
   enabled <- is_billing_enabled E project_id ;;
   if negb (truthy enabled) then
     raise (RuntimeError "Billing already in disabled state")
   else
     costs_per_interval_starts_dict <-
       get_costs_per_interval_starts_dict E collection_name ;;
     emit (LogLedger costs_per_interval_starts_dict) ;;;
     persist_data E collection_name costs_per_interval_starts_dict ;;;
     total <- py_sum (values E costs_per_interval_starts_dict) ;;
     emit (LogTotal total) ;;;
     handle_billing_depending_on_total E project_id budget total)
    {| db := d; notification := VDict n;
       trace := [LogHandling project; LogBudget budget; LogCost cost interval] |}.
Proof.
  intros Hraw Hloads Hp Hb Hc Hk.
  unfold run, handle_budgets_notifications.
  unfold bind at 1. unfold subscript at 1. rewrite Hraw. unfold ret at 1.
  rewrite Hloads.
  unfold bind at 1, put_notification at 1.
  unfold bind at 1, subscript at 1. rewrite Hp. unfold ret at 1.
  unfold bind at 1, subscript at 1. rewrite Hb. unfold ret at 1.
  unfold bind at 1, emit at 1. unfold bind at 1, emit at 1.
  unfold bind at 1, subscript at 1. rewrite Hc. unfold ret at 1.
  unfold bind at 1, subscript at 1. rewrite Hk. unfold ret at 1.
  unfold bind at 1, emit at 1. reflexivity.
Qed.

(** The ledger step on a notification whose interval is not a str. *)
Lemma get_costs_bad_interval coll st n interval c :
  notification st = VDict n →
  n !! "costIntervalStart" = Some interval →
  n !! "costAmount" = Some c →
  (∀ k, interval ≠ VStr k) →
  get_costs_per_interval_starts_dict E coll st =
  (Err TypeError,
   {| db := db st; notification := VDict (stamped E n);
      trace := trace st ++ [DocGet coll costs_per_interval_starts_doc_name] |}).
Proof.
  intros Hn Hk Hc Hbad.
  assert (Hk' : stamped E n !! "costIntervalStart" = Some interval)
    by (unfold stamped; rewrite lookup_insert_ne; done).
  assert (Hc' : stamped E n !! "costAmount" = Some c)
    by (unfold stamped; rewrite lookup_insert_ne; done).
  unfold get_costs_per_interval_starts_dict, document_to_dict, bind,
    get_notification, set_item, put_notification, emit, logged, get_db,
    subscript, ret.
  rewrite Hn. fold (stamped E n). cbn [notification db trace].
  rewrite Hk', Hc'.
  assert (Hstr : ∀ st', as_str interval st' = (Err TypeError, st')).
  { intros st'. destruct interval; try reflexivity. by destruct (Hbad s). }
  destruct (db st !! (coll, costs_per_interval_starts_doc_name)) as [costs|];
    [destruct (truthy (VDict costs)) |]; by rewrite Hstr.
Qed.

(** A run on a malformed event, as one expression. *)
Lemma run_malformed data d :
  malformed E data →
  ∃ e nt tr,
    run E data d = (Err e, {| db := d; notification := nt; trace := tr |}) ∧
    malformed_input e = true ∧
    Forall (λ ev, is_log ev = true) tr.
Proof.
  intros Hbad.
  destruct Hbad as [Hraw | raw Hraw Hloads | raw v f Hraw Hloads Hf Hnone];
    unfold run, handle_budgets_notifications;
    unfold bind at 1; unfold subscript at 1; rewrite Hraw.
  - raised_with (KeyError "data").
  - unfold ret at 1. rewrite Hloads. raised_with DecodeError.
  - unfold ret at 1. rewrite Hloads.
    unfold bind at 1, put_notification at 1.
    destruct v as [| | | | | |n]; try raised_with TypeError.
    cbn [field] in Hnone.
    unfold bind at 1, subscript at 1.
    destruct (n !! "budgetDisplayName") as [project|] eqn:H1;
      [| raised_with (KeyError "budgetDisplayName")].
    unfold ret at 1, bind at 1, subscript at 1.
    destruct (n !! "budgetAmount") as [budget|] eqn:H2;
      [| raised_with (KeyError "budgetAmount")].
    unfold ret at 1, bind at 1, emit at 1, bind at 1, emit at 1.
    unfold bind at 1, subscript at 1.
    destruct (n !! "costAmount") as [cost|] eqn:H3;
      [| raised_with (KeyError "costAmount")].
    unfold ret at 1, bind at 1, subscript at 1.
    destruct (n !! "costIntervalStart") as [interval|] eqn:H4;
      [| raised_with (KeyError "costIntervalStart")].
    exfalso. unfold required_fields in Hf.
    repeat (apply elem_of_cons in Hf as [-> | Hf]; [congruence |]).
    by apply elem_of_nil in Hf.
Qed.

Lemma log_is_harmless tr :
  Forall (λ ev, is_log ev = true) tr → Forall (λ ev, harmless ev = true) tr.
Proof.
  intros Hlog. apply (Forall_impl _ _ _ Hlog). intros ev Hev. by destruct ev.
Qed.

Lemma str_or_not (v : value) : (∃ s, v = VStr s) ∨ (∀ s, v ≠ VStr s).
Proof. destruct v; try (right; discriminate). left. by eexists. Qed.

(** A run on a notification whose project id is not a str. *)
Lemma run_bad_project data raw n project budget cost interval d :
  data !! "data" = Some raw →
  loads_b64 E raw = Some (VDict n) →
  n !! "budgetDisplayName" = Some project →
  n !! "budgetAmount" = Some budget →
  n !! "costAmount" = Some cost →
  n !! "costIntervalStart" = Some interval →
  (∀ p, project ≠ VStr p) →
  run E data d =
  (Err TypeError,
   {| db := d; notification := VDict n;
      trace := [LogHandling project; LogBudget budget; LogCost cost interval] |}).
Proof.
  intros Hraw Hloads Hp Hb Hc Hk Hbad.
  rewrite (run_fields data raw n project budget cost interval d Hraw Hloads Hp Hb Hc Hk).
  unfold bind at 1. destruct project; try reflexivity. by destruct (Hbad s).
Qed.

(** A run on a notification whose interval is not a str. *)
Lemma run_bad_interval data raw n p budget cost interval d :
  data !! "data" = Some raw →
  loads_b64 E raw = Some (VDict n) →
  n !! "budgetDisplayName" = Some (VStr p) →
  n !! "budgetAmount" = Some budget →
  n !! "costAmount" = Some cost →
  n !! "costIntervalStart" = Some interval →
  (∀ k, interval ≠ VStr k) →
  ∃ e nt tr,
    run E data d = (Err e, {| db := d; notification := nt; trace := tr |}) ∧
    Forall (λ ev, harmless ev = true) tr.
Proof.
  intros Hraw Hloads Hp Hb Hc Hk Hbad.
  rewrite (run_fields data raw n (VStr p) budget cost interval d Hraw Hloads Hp Hb Hc Hk).
  unfold bind at 1. rewrite get_collection_name_str.
  unfold bind at 1, as_str at 1, ret at 1.
  unfold bind at 1. rewrite is_billing_enabled_run.
  destruct (truthy _); cbn [negb].
  - unfold bind at 1.
    erewrite get_costs_bad_interval by (cbn [logged notification]; eauto).
    do 3 eexists. split; [reflexivity |]. by repeat constructor.
  - do 3 eexists. split; [reflexivity |]. by repeat constructor.
Qed.

(** Every run either carries a notification, or fails without a commit
    and without a request to unlink, leaving the store as it was. *)
Lemma run_carries_or_fails data d :
  (∃ n p budget cost k, carries E data n p budget cost k) ∨
  (∃ e nt tr,
     run E data d = (Err e, {| db := d; notification := nt; trace := tr |}) ∧
     Forall (λ ev, harmless ev = true) tr).
Proof.
  assert (Hmal : malformed E data →
            ∃ e nt tr,
              run E data d = (Err e, {| db := d; notification := nt; trace := tr |}) ∧
              Forall (λ ev, harmless ev = true) tr).
  { intros Hbad. destruct (run_malformed data d Hbad) as (e & nt & tr & Hrun & _ & Htr).
    exists e, nt, tr. split; [exact Hrun | by apply log_is_harmless]. }
  destruct (data !! "data") as [raw|] eqn:Hraw;
    [| right; apply Hmal; by apply Malformed_no_payload].
  destruct (loads_b64 E raw) as [v|] eqn:Hloads;
    [| right; apply Hmal; by apply (Malformed_undecodable _ _ raw)].
  assert (Hmiss : ∀ f, f ∈ required_fields → field v f = None →
            ∃ e nt tr,
              run E data d = (Err e, {| db := d; notification := nt; trace := tr |}) ∧
              Forall (λ ev, harmless ev = true) tr).
  { intros f Hf Hnone. apply Hmal. by apply (Malformed_missing _ _ raw v f). }
  assert (Hreq : ∀ f, f ∈ [ "budgetDisplayName"; "budgetAmount"; "costAmount";
                            "costIntervalStart" ] → f ∈ required_fields) by done.
  destruct (field v "budgetDisplayName") as [project|] eqn:H1;
    [| right; apply (Hmiss "budgetDisplayName"); [apply Hreq; set_solver | done]].
  destruct (field v "budgetAmount") as [budget|] eqn:H2;
    [| right; apply (Hmiss "budgetAmount"); [apply Hreq; set_solver | done]].
  destruct (field v "costAmount") as [cost|] eqn:H3;
    [| right; apply (Hmiss "costAmount"); [apply Hreq; set_solver | done]].
  destruct (field v "costIntervalStart") as [interval|] eqn:H4;
    [| right; apply (Hmiss "costIntervalStart"); [apply Hreq; set_solver | done]].
  destruct v as [| | | | | |n]; try discriminate H1. cbn [field] in *.
  destruct (str_or_not project) as [[p ->] | Hnp]; cycle 1.
  { right. do 3 eexists.
    split; [by apply (run_bad_project data raw n project budget cost interval d) |].
    by repeat constructor. }
  destruct (str_or_not interval) as [[k ->] | Hnk]; cycle 1.
  { right. by apply (run_bad_interval data raw n p budget cost interval d). }
  left. exists n, p, budget, cost, k. split; eauto.
Qed.

End Runs.

(** ** Collections and the frame of a run *)

Lemma collection_of_inj E p q :
  collection_of E p = collection_of E q → p = q.
Proof.
  unfold collection_of. intros H.
  apply (inj (String.append _)) in H.
  by apply (inj (String.append "-")) in H.
Qed.

(** The store a run on a carried notification leaves: the batch applied
    when billing is confirmed and the commit goes through, the store as
    it was otherwise. *)
Lemma db_run_carries E data n p budget cost k d :
  carries E data n p budget cost k →
  db (run E data d).2 =
  if confirmed E p && commit_succeeds E
  then apply_batch d (batch_of E p (upsert (ledger_of E p d) k cost) (stamped E n))
  else d.
Proof.
  intros Hcar. rewrite (run_carries E data n p budget cost k d Hcar).
  destruct (confirmed E p); cbn [negb andb]; [| reflexivity].
  destruct (commit_succeeds E); [| reflexivity].
  by rewrite db_after_persist.
Qed.

Lemma apply_batch_other E p ledger record d coll doc :
  (coll, doc) ≠ (collection_of E p, costs_per_interval_starts_doc_name) →
  (coll, doc) ≠ (collection_of E p, auto_id E) →
  apply_batch d (batch_of E p ledger record) !! (coll, doc) = d !! (coll, doc).
Proof.
  intros H1 H2. unfold apply_batch, batch_of, apply_write. cbn.
  by rewrite !lookup_insert_ne.
Qed.

Lemma apply_batch_keeps E p ledger record d key :
  is_Some (d !! key) →
  is_Some (apply_batch d (batch_of E p ledger record) !! key).
Proof.
  intros Hkey. unfold apply_batch, batch_of, apply_write. cbn.
  rewrite !lookup_insert_is_Some'. auto.
Qed.

Lemma harmless_no_disable tr :
  Forall (λ ev, harmless ev = true) tr → disable_calls tr = 0%nat.
Proof.
  unfold disable_calls. induction 1 as [|e tr He _ IH]; [reflexivity |].
  rewrite filter_cons. destruct e; try discriminate He; exact IH.
Qed.

(** X1. [__get_collection_name] on a str returns the prefix, a dash and
    the project id, the prefix being [budget-notifications] when the
    environment variable is not set; distinct project ids get distinct
    collections; and an id that is not a str raises [TypeError]. *)
Theorem collection_names_do_not_clash E st :
  (∀ p q, (get_collection_name E (VStr p) st).1 =
          (get_collection_name E (VStr q) st).1 → p = q) ∧
  (∀ p, environ E !! "COLLECTION_NAME_PREFIX" = None →
        get_collection_name E (VStr p) st =
        (Ok ("budget-notifications-" +:+ p), st)) ∧
  (∀ p prefix, environ E !! "COLLECTION_NAME_PREFIX" = Some prefix →
        get_collection_name E (VStr p) st = (Ok (prefix +:+ "-" +:+ p), st)) ∧
  (∀ v, (∀ s, v ≠ VStr s) → get_collection_name E v st = (Err TypeError, st)).
Proof.
  split; [| split; [| split]].
  - intros p q H. rewrite !get_collection_name_str in H. cbn [fst] in H.
    apply collection_of_inj with E. congruence.
  - intros p Hnone. unfold get_collection_name. by rewrite Hnone.
  - intros p prefix Hsome. unfold get_collection_name. by rewrite Hsome.
  - intros v Hv. destruct v; try reflexivity. by destruct (Hv s).
Qed.

Lemma collection_names_do_not_clash_witness :
  get_collection_name (ex_processing 100 40 "2024-01") (VStr "p1") (init ∅)
  = (Ok "budget-notifications-p1", init ∅).
Proof.
  refine (proj1 (proj2 (collection_names_do_not_clash
            (ex_processing 100 40 "2024-01") (init ∅))) "p1" _).
  reflexivity.
Defined.

(** X2. A notification whose [budgetDisplayName] is not a str: the
    handler raises [TypeError] when it builds the collection name, after
    its three log lines and before any call to the billing API or to the
    store. *)
Theorem non_string_project_raises_before_any_call
    E data raw n project budget cost interval d :
  data !! "data" = Some raw →
  loads_b64 E raw = Some (VDict n) →
  n !! "budgetDisplayName" = Some project →
  n !! "budgetAmount" = Some budget →
  n !! "costAmount" = Some cost →
  n !! "costIntervalStart" = Some interval →
  (∀ p, project ≠ VStr p) →
  (run E data d).1 = Err TypeError ∧
  db (run E data d).2 = d ∧
  notification (run E data d).2 = VDict n ∧
  trace (run E data d).2 =
    [LogHandling project; LogBudget budget; LogCost cost interval].
Proof.
  intros Hraw Hloads Hp Hb Hc Hk Hbad.
  by rewrite (run_bad_project E data raw n project budget cost interval d).
Qed.

(** X3. A run on a carried notification of project [p] reads and writes
    the store only in [p]'s collection: every document other than [p]'s
    ledger and the audit record of this run is what it was, and so is the
    ledger of every other project. *)
Theorem run_touches_only_own_documents E data n p budget cost k d :
  carries E data n p budget cost k →
  (∀ coll doc,
     (coll, doc) ≠ (collection_of E p, costs_per_interval_starts_doc_name) →
     (coll, doc) ≠ (collection_of E p, auto_id E) →
     db (run E data d).2 !! (coll, doc) = d !! (coll, doc)) ∧
  (∀ q, q ≠ p → ledger_of E q (db (run E data d).2) = ledger_of E q d).
Proof.
  intros Hcar.
  assert (Hframe : ∀ coll doc,
     (coll, doc) ≠ (collection_of E p, costs_per_interval_starts_doc_name) →
     (coll, doc) ≠ (collection_of E p, auto_id E) →
     db (run E data d).2 !! (coll, doc) = d !! (coll, doc)).
  { intros coll doc H1 H2.
    rewrite (db_run_carries E data n p budget cost k d Hcar).
    destruct (confirmed E p && commit_succeeds E); [| reflexivity].
    by apply apply_batch_other. }
  split; [exact Hframe |].
  intros q Hq. unfold ledger_of. apply Hframe.
  - intros [= H]. by apply collection_of_inj in H.
  - intros [= H _]. by apply collection_of_inj in H.
Qed.

Lemma non_string_project_raises_before_any_call_witness :
  (run (ex_processing_of ex_numbered) ex_event ex_store).1 = Err TypeError ∧
  db (run (ex_processing_of ex_numbered) ex_event ex_store).2 = ex_store.
Proof.
  destruct (non_string_project_raises_before_any_call
              (ex_processing_of ex_numbered) ex_event (VStr "eyJidWRnZXQiOiAuLi59")
              ex_numbered (VInt 7) (VInt 100) (VInt 40) (VStr "2024-01") ex_store)
    as (Hres & Hdb & _); try reflexivity.
  - discriminate.
  - by split.
Defined.

Lemma run_touches_only_own_documents_witness :
  ledger_of (ex_processing 100 30 "2024-02") "p2"
    (db (run (ex_processing 100 30 "2024-02") ex_event ex_shared_store).2)
  = Some {[ "2024-01" := VInt 5 ]}.
Proof.
  rewrite (proj2 (run_touches_only_own_documents
             (ex_processing 100 30 "2024-02") ex_event (ex_note 100 30 "2024-02")
             "p1" (VInt 100) (VInt 30) "2024-02" ex_shared_store ltac:(carries_note))
             "p2" ltac:(discriminate)).
  reflexivity.
Defined.

(** X4. No run deletes a document: whatever the event and the world, a
    document that is in the store before the run is in the store after
    it. *)
Theorem run_never_deletes E data d key :
  is_Some (d !! key) → is_Some (db (run E data d).2 !! key).
Proof.
  intros Hkey.
  destruct (run_carries_or_fails E data d)
    as [(n & p & budget & cost & k & Hcar) | (e & nt & tr & -> & _)];
    [| exact Hkey].
  rewrite (db_run_carries E data n p budget cost k d Hcar).
  destruct (confirmed E p && commit_succeeds E); [| exact Hkey].
  by apply apply_batch_keeps.
Qed.

Lemma run_never_deletes_witness :
  is_Some (db (run (ex_processing 100 30 "2024-02") ex_event ex_shared_store).2
             !! ("budget-notifications-p2", "0-costs-per-interval-starts")).
Proof.
  apply (run_never_deletes (ex_processing 100 30 "2024-02") ex_event ex_shared_store
           ("budget-notifications-p2", "0-costs-per-interval-starts")).
  by eexists.
Defined.

(** X5. A run changes the store only by processing a notification: if
    the store after the run differs from the store before, the event
    carried a notification with its four fields, billing was confirmed
    enabled, the commit went through, and the store is the old one with
    the ledger document and the audit record written. *)
Theorem store_changes_only_when_processed E data d :
  db (run E data d).2 ≠ d →
  ∃ n p budget cost k,
    carries E data n p budget cost k ∧
    confirmed E p = true ∧
    commit_succeeds E = true ∧
    db (run E data d).2 =
      apply_batch d (batch_of E p (upsert (ledger_of E p d) k cost) (stamped E n)).
Proof.
  intros Hchanged.
  destruct (run_carries_or_fails E data d)
    as [(n & p & budget & cost & k & Hcar) | (e & nt & tr & Hrun & _)];
    [| by rewrite Hrun in Hchanged].
  exists n, p, budget, cost, k. split; [exact Hcar |].
  pose proof (db_run_carries E data n p budget cost k d Hcar) as Hdb.
  destruct (confirmed E p); [| by destruct Hchanged].
  destruct (commit_succeeds E); [| by destruct Hchanged].
  by repeat split.
Qed.

Lemma store_changes_only_when_processed_witness :
  ∃ n p budget cost k,
    carries (ex_processing 100 40 "2024-01") ex_event n p budget cost k ∧
    confirmed (ex_processing 100 40 "2024-01") p = true ∧
    commit_succeeds (ex_processing 100 40 "2024-01") = true ∧
    db (run (ex_processing 100 40 "2024-01") ex_event ∅).2 =
      apply_batch ∅
        (batch_of (ex_processing 100 40 "2024-01") p
           (upsert (ledger_of (ex_processing 100 40 "2024-01") p ∅) k cost)
           (stamped (ex_processing 100 40 "2024-01") n)).
Proof.
  apply (store_changes_only_when_processed (ex_processing 100 40 "2024-01") ex_event ∅).
  intros Hsame.
  apply (f_equal (λ m : firestore,
           m !! ("budget-notifications-p1", "0-costs-per-interval-starts"))) in Hsame.
  vm_compute in Hsame. discriminate Hsame.
Defined.

(** ** Totals that cannot be computed or compared *)

(** X6. A processed notification whose ledger, once updated, holds a
    value that is not a number (a str cost, a null, or such a value left
    by an earlier notification): the ledger and the audit record are
    persisted first, then [sum] raises; no total is logged and billing is
    not disabled.  The error is [TypeError], always so when the ledger
    holds no float; with floats, an int too large for a float may raise
    [OverflowError] before the sum gets to the value. *)
Theorem non_numeric_ledger_raises_after_persisting E data n p budget cost k d k' v :
  carries E data n p budget cost k →
  confirmed E p = true →
  commit_succeeds E = true →
  upsert (ledger_of E p d) k cost !! k' = Some v →
  num_of v = None →
  ∃ e,
    run E data d = (Err e, persisted E d n p budget cost k) ∧
    (e = TypeError ∨ e = OverflowError) ∧
    (float_free (values E (upsert (ledger_of E p d) k cost)) → e = TypeError) ∧
    disable_calls (trace (run E data d).2) = 0%nat.
Proof.
  intros Hcar Hconf Hcommit Hk' Hv.
  rewrite (run_processed E data n p budget cost k d Hcar Hconf Hcommit).
  pose proof (value_in_values E _ k' v Hk') as Hin.
  destruct (sum_from (NInt 0) (values E (upsert (ledger_of E p d) k cost)))
    as [t|e] eqn:Hsum.
  { destruct (sum_from_non_number _ v Hin Hv (NInt 0)); congruence. }
  exists e. rewrite (after_persist_raises E p budget _ e _ Hsum).
  split; [reflexivity |]. split; [| split; [| reflexivity]].
  - destruct (sum_from_non_number _ v Hin Hv (NInt 0)); [left | right]; congruence.
  - intros Hfree. pose proof (sum_from_non_number_ints _ v Hin Hv Hfree 0). congruence.
Qed.

Lemma non_numeric_ledger_raises_after_persisting_witness :
  ∃ e,
    run (ex_processing_of ex_worded_cost) ex_event ex_store
    = (Err e,
       persisted (ex_processing_of ex_worded_cost) ex_store ex_worded_cost "p1"
         (VInt 100) (VStr "40.5") "2024-02") ∧
    (e = TypeError ∨ e = OverflowError).
Proof.
  destruct (non_numeric_ledger_raises_after_persisting
              (ex_processing_of ex_worded_cost) ex_event ex_worded_cost "p1"
              (VInt 100) (VStr "40.5") "2024-02" ex_store "2024-02" (VStr "40.5"))
    as (e & Hrun & He & _).
  - carries_note.
  - reflexivity.
  - reflexivity.
  - apply lookup_insert_eq.
  - reflexivity.
  - exists e. by split.
Defined.

(** X7. A processed notification whose [budgetAmount] is not a number:
    the ledger and the audit record are persisted and the total is
    logged, then the comparison raises [TypeError]; billing is not
    disabled. *)
Theorem non_numeric_budget_raises_after_total E data n p budget cost k d t :
  carries E data n p budget cost k →
  confirmed E p = true →
  commit_succeeds E = true →
  sum_from (NInt 0) (values E (upsert (ledger_of E p d) k cost)) = Ok t →
  num_of budget = None →
  run E data d =
    (Err TypeError, logged (persisted E d n p budget cost k) [LogTotal t]) ∧
  disable_calls (trace (run E data d).2) = 0%nat.
Proof.
  intros Hcar Hconf Hcommit Hsum Hb.
  rewrite (run_processed E data n p budget cost k d Hcar Hconf Hcommit).
  rewrite (after_persist_run E p budget _ t _ Hsum).
  rewrite (handle_billing_raises E p budget t TypeError)
    by (unfold lt_value; by rewrite Hb).
  split; reflexivity.
Qed.

Lemma non_numeric_budget_raises_after_total_witness :
  disable_calls
    (trace (run (ex_processing_of ex_worded_budget) ex_event ex_store).2) = 0%nat.
Proof.
  refine (proj2 (non_numeric_budget_raises_after_total
            (ex_processing_of ex_worded_budget) ex_event ex_worded_budget "p1"
            (VStr "100") (VInt 40) "2024-02" ex_store (NInt 110) _ _ _ _ _)).
  - carries_note.
  - reflexivity.
  - reflexivity.
  - vm_compute. reflexivity.
  - reflexivity.
Defined.

(** The run at hand did not ask to unlink. *)
Ltac none_asked :=
  replace (disable_calls _) with 0%nat by reflexivity; split; [lia | done].

(** X8. Billing is disabled at most once per run, and only by a run
    that has processed a notification and found its total not below the
    budget: whatever the event and the world, a run that asks to unlink
    the billing account carried a notification, found billing enabled,
    committed the ledger and the audit record, summed the ledger to a
    number [t], and evaluated [t < budgetAmount] to false. *)
Theorem disable_only_after_persisting E data d :
  (disable_calls (trace (run E data d).2) ≤ 1)%nat ∧
  (disable_calls (trace (run E data d).2) ≠ 0%nat →
   ∃ n p budget cost k t,
     carries E data n p budget cost k ∧
     confirmed E p = true ∧
     commit_succeeds E = true ∧
     sum_from (NInt 0) (values E (upsert (ledger_of E p d) k cost)) = Ok t ∧
     lt_value t budget = Ok false ∧
     db (run E data d).2 =
       apply_batch d (batch_of E p (upsert (ledger_of E p d) k cost) (stamped E n))).
Proof.
  destruct (run_carries_or_fails E data d)
    as [(n & p & budget & cost & k & Hcar) | (e & nt & tr & -> & Htr)];
    [| cbn [snd trace]; rewrite (harmless_no_disable tr Htr); split; [lia | done]].
  rewrite (run_carries E data n p budget cost k d Hcar).
  destruct (confirmed E p) eqn:Hconf; cbn [negb]; [| none_asked].
  destruct (commit_succeeds E) eqn:Hcommit; [| none_asked].
  destruct (sum_from (NInt 0) (values E (upsert (ledger_of E p d) k cost)))
    as [t|e] eqn:Hsum;
    [| rewrite (after_persist_raises E p budget _ e _ Hsum); none_asked].
  rewrite (after_persist_run E p budget _ t _ Hsum).
  destruct (lt_value t budget) as [below|e] eqn:Hlt;
    [| rewrite (handle_billing_raises E p budget t e _ Hlt); none_asked].
  rewrite (handle_billing_run E p budget t below _ Hlt).
  destruct below; [none_asked |].
  rewrite disable_billing_run. cbn [snd logged trace db persisted].
  replace (disable_calls _) with 1%nat by (rewrite !disable_calls_app; reflexivity).
  split; [lia |].
  intros _. exists n, p, budget, cost, k, t.
  split; [exact Hcar |]. do 4 (split; [reflexivity || assumption |]).
  reflexivity.
Qed.

Lemma disable_only_after_persisting_witness :
  (disable_calls (trace (run (ex_processing 100 30 "2024-02") ex_event ex_store).2)
   ≤ 1)%nat.
Proof.
  exact (proj1 (disable_only_after_persisting
                  (ex_processing 100 30 "2024-02") ex_event ex_store)).
Defined.

(** ** First and repeated notifications *)

Lemma ledger_total_delete (m : dict) k old :
  m !! k = Some old → ledger_total m = amount old + ledger_total (delete k m).
Proof.
  intros Hk. unfold ledger_total.
  rewrite (map_fold_delete_L _ _ k old m); [reflexivity | | exact Hk].
  intros. lia.
Qed.

Lemma values_singleton E k (v : value) : values E {[k := v]} = [v].
Proof.
  apply Permutation_singleton_r.
  rewrite values_permutation, map_to_list_singleton. reflexivity.
Qed.

Lemma num_add_zero c : num_add (NInt 0) c = Ok (sum_of_one c).
Proof. destruct c; reflexivity. Qed.

(** X9. The first notification of a project, when there is no ledger
    document or an empty one: the ledger persisted holds the one entry of
    the notification, and the total compared with the budget is [0] plus
    its cost: the cost itself when it is an int, [0.0 + cost] when it is a
    float. *)
Theorem first_notification_starts_ledger E data n p budget cost k d c :
  carries E data n p budget cost k →
  confirmed E p = true →
  commit_succeeds E = true →
  auto_id E ≠ costs_per_interval_starts_doc_name →
  ledger_of E p d = None ∨ ledger_of E p d = Some ∅ →
  num_of cost = Some c →
  ledger_of E p (db (run E data d).2) = Some {[k := cost]} ∧
  run E data d =
    handle_billing_depending_on_total E p budget (sum_of_one c)
      (logged (persisted E d n p budget cost k) [LogTotal (sum_of_one c)]).
Proof.
  intros Hcar Hconf Hcommit Hid Hempty Hc.
  assert (Hup : upsert (ledger_of E p d) k cost = {[k := cost]})
    by (unfold upsert; destruct Hempty as [-> | ->]; cbn [from_option id];
        by rewrite insert_empty).
  split.
  - rewrite (run_processed_db E data n p budget cost k d Hcar Hconf Hcommit), Hup.
    by apply apply_batch_ledger.
  - rewrite (run_processed E data n p budget cost k d Hcar Hconf Hcommit).
    apply after_persist_run. rewrite Hup, values_singleton.
    cbn [sum_from]. by rewrite Hc, num_add_zero.
Qed.

Lemma first_notification_starts_ledger_witness :
  ledger_of (ex_pricing 100.5 30.25 "2024-02") "p1"
    (db (run (ex_pricing 100.5 30.25 "2024-02") ex_event ∅).2)
  = Some {[ "2024-02" := VFloat 30.25 ]}.
Proof.
  refine (proj1 (first_notification_starts_ledger
            (ex_pricing 100.5 30.25 "2024-02") ex_event (ex_priced 100.5 30.25 "2024-02")
            "p1" (VFloat 100.5) (VFloat 30.25) "2024-02" ∅ (NFloat 30.25)
            _ _ _ _ _ _)).
  - carries_note.
  - reflexivity.
  - reflexivity.
  - discriminate.
  - by left.
  - reflexivity.
Defined.

(** X10. A notification for an interval the ledger already holds
    replaces that interval's cost in the total instead of adding to it:
    the values summed are the new cost and the stored costs of the other
    intervals, the interval's old cost not being among them; when the
    ledger and the cost are ints, the total compared with the budget is
    the ledger's previous total minus the interval's old cost plus the
    new one. *)
Theorem renotification_replaces_cost_in_total E data n p budget cost k d fetched old :
  carries E data n p budget cost k →
  confirmed E p = true →
  commit_succeeds E = true →
  ledger_of E p d = Some fetched →
  fetched !! k = Some old →
  values E (upsert (ledger_of E p d) k cost)
    ≡ₚ cost :: (map_to_list (delete k fetched)).*2 ∧
  (integral fetched →
   is_Some (int_of cost) →
   run E data d =
     handle_billing_depending_on_total E p budget
       (NInt (ledger_total fetched - amount old + amount cost))
       (logged (persisted E d n p budget cost k)
          [LogTotal (NInt (ledger_total fetched - amount old + amount cost))])).
Proof.
  intros Hcar Hconf Hcommit Hfetched Hold. split.
  - rewrite values_permutation, Hfetched. unfold upsert. cbn [from_option id].
    rewrite <- (insert_delete_eq fetched k cost).
    rewrite (map_to_list_insert (delete k fetched) k cost)
      by apply lookup_delete_eq.
    reflexivity.
  - intros Hnum Hcost.
    rewrite (run_processed E data n p budget cost k d Hcar Hconf Hcommit).
    assert (Hnum' : integral (upsert (ledger_of E p d) k cost))
      by (rewrite Hfetched; apply map_Forall_insert_2; assumption).
    replace (ledger_total fetched - amount old + amount cost)
      with (ledger_total (upsert (ledger_of E p d) k cost)).
    + apply after_persist_run, sum_values_total, Hnum'.
    + rewrite Hfetched. unfold upsert. cbn [from_option id].
      rewrite ledger_total_insert, (ledger_total_delete fetched k old Hold). lia.
Qed.

Lemma renotification_replaces_cost_in_total_witness :
  run (ex_processing 100 90 "2024-01") ex_event ex_store =
    handle_billing_depending_on_total (ex_processing 100 90 "2024-01") "p1" (VInt 100)
      (NInt (ledger_total {[ "2024-01" := VInt 70 ]} - amount (VInt 70)
             + amount (VInt 90)))
      (logged (persisted (ex_processing 100 90 "2024-01") ex_store
                 (ex_note 100 90 "2024-01") "p1" (VInt 100) (VInt 90) "2024-01")
         [LogTotal (NInt (ledger_total {[ "2024-01" := VInt 70 ]} - amount (VInt 70)
                          + amount (VInt 90)))]).
Proof.
  refine (proj2 (renotification_replaces_cost_in_total
           (ex_processing 100 90 "2024-01") ex_event (ex_note 100 90 "2024-01")
           "p1" (VInt 100) (VInt 90) "2024-01" ex_store
           {[ "2024-01" := VInt 70 ]} (VInt 70) _ _ _ _ _) _ _).
  - carries_note.
  - reflexivity.
  - reflexivity.
  - reflexivity.
  - reflexivity.
  - apply map_Forall_singleton. by eexists.
  - by eexists.
Defined.

(** X11. Whether the total depends on the order in which the dict
    yields the ledger's values: it does not when the ledger holds no
    float ([sum] returns the same total, or raises the same [TypeError],
    in any two orders), and it can when the ledger holds floats. *)
Theorem sum_ignores_order :
  (∀ E E' (m : dict),
     float_free (values E m) →
     sum_from (NInt 0) (values E m) = sum_from (NInt 0) (values E' m)) ∧
  (∃ vs vs',
     vs ≡ₚ vs' ∧ sum_from (NInt 0) vs ≠ sum_from (NInt 0) vs').
Proof.
  split.
  - intros E E' m Hfree. apply sum_from_permutation; [| exact Hfree].
    by rewrite !values_permutation.
  - exists [VFloat 0.1; VFloat 0.2; VFloat 0.3], [VFloat 0.3; VFloat 0.2; VFloat 0.1].
    split.
    + symmetry. apply (reverse_Permutation [VFloat 0.1; VFloat 0.2; VFloat 0.3]).
    + intros Hsame.
      apply (f_equal (λ r, match r with
                           | Ok (NFloat x) => PrimFloat.eqb x 0.6
                           | _ => false
                           end)) in Hsame.
      vm_compute in Hsame. discriminate Hsame.
Qed.

Lemma sum_ignores_order_witness :
  sum_from (NInt 0) (values (ex_processing 100 30 "2024-02")
                       {[ "2024-01" := VInt 70; "2024-02" := VInt 30 ]})
  = sum_from (NInt 0) (values (ex_processing_as "aaaaaaaaaaaaaaaaaaa1" 100 30 "2024-02")
                         {[ "2024-01" := VInt 70; "2024-02" := VInt 30 ]}).
Proof.
  refine (proj1 sum_ignores_order (ex_processing 100 30 "2024-02")
            (ex_processing_as "aaaaaaaaaaaaaaaaaaa1" 100 30 "2024-02")
            {[ "2024-01" := VInt 70; "2024-02" := VInt 30 ]} _).
  vm_compute. repeat constructor; discriminate.
Defined.

(** ** Deliveries *)

(** The ledger after two processed notifications. *)
Lemma deliver_two coll p inv1 inv2 note1 note2 d :
  processed_for coll p inv1 note1 →
  processed_for coll p inv2 note2 →
  deliver [inv1; inv2] d !! (coll, costs_per_interval_starts_doc_name) =
  Some (record_cost
          (record_cost (default ∅ (d !! (coll, costs_per_interval_starts_doc_name)))
             note1) note2).
Proof.
  intros H1 H2.
  destruct (deliver_ledger coll p [inv1; inv2] [note1; note2]) with (d := d)
    as [Hfold Hsome]; [by repeat constructor |].
  destruct Hsome as [ledger Hl]; [discriminate |].
  rewrite Hl in Hfold |- *. cbn [from_option id foldl] in Hfold. by rewrite Hfold.
Qed.

Lemma deliver_one coll p inv note d :
  processed_for coll p inv note →
  deliver [inv] d !! (coll, costs_per_interval_starts_doc_name) =
  Some (record_cost (default ∅ (d !! (coll, costs_per_interval_starts_doc_name))) note).
Proof.
  intros H1.
  destruct (deliver_ledger coll p [inv] [note]) with (d := d)
    as [Hfold Hsome]; [by repeat constructor |].
  destruct Hsome as [ledger Hl]; [discriminate |].
  rewrite Hl in Hfold |- *. cbn [from_option id foldl] in Hfold. by rewrite Hfold.
Qed.

(** X12. A notification delivered twice: the ledger after the second
    delivery is the ledger after the first, so a redelivery changes no
    cost and no total. *)
Theorem redelivery_keeps_ledger coll p inv1 inv2 note d :
  processed_for coll p inv1 note →
  processed_for coll p inv2 note →
  deliver [inv1; inv2] d !! (coll, costs_per_interval_starts_doc_name) =
  deliver [inv1] d !! (coll, costs_per_interval_starts_doc_name).
Proof.
  intros H1 H2.
  rewrite (deliver_two coll p inv1 inv2 note note d H1 H2).
  rewrite (deliver_one coll p inv1 note d H1).
  unfold record_cost. by rewrite insert_insert_eq.
Qed.

(** X13. Notifications of two different intervals can be processed in
    either order: the ledger that results is the same. *)
Theorem distinct_intervals_commute coll p inv1 inv2 note1 note2 d :
  processed_for coll p inv1 note1 →
  processed_for coll p inv2 note2 →
  note1.1 ≠ note2.1 →
  deliver [inv1; inv2] d !! (coll, costs_per_interval_starts_doc_name) =
  deliver [inv2; inv1] d !! (coll, costs_per_interval_starts_doc_name).
Proof.
  intros H1 H2 Hne.
  rewrite (deliver_two coll p inv1 inv2 note1 note2 d H1 H2).
  rewrite (deliver_two coll p inv2 inv1 note2 note1 d H2 H1).
  unfold record_cost. by rewrite insert_insert_ne.
Qed.

(** What a sequence of processed notifications leaves alone: a document
    of the collection that is neither the ledger nor one of the audit
    records they write. *)
Lemma deliver_keeps_document coll p invs ns :
  Forall2 (recorded_for coll p) invs ns →
  ∀ d id,
    id ≠ costs_per_interval_starts_doc_name →
    id ∉ map (λ inv : env * dict, auto_id inv.1) invs →
    deliver invs d !! (coll, id) = d !! (coll, id).
Proof.
  induction 1 as [|[E data] n invs ns Hrec _ IH]; intros d id Hid Hnew;
    [reflexivity |].
  destruct Hrec as (budget & cost & k & Hcar & Hconf & Hcommit & _ & Hcoll).
  cbn [fst snd] in *. cbn [deliver]. cbn [map fst] in Hnew.
  rewrite IH; [| exact Hid | intros Hin; apply Hnew; by right].
  rewrite (run_processed_db E data n p budget cost k d Hcar Hconf Hcommit).
  apply apply_batch_other; rewrite Hcoll.
  - intros [= H]. by apply Hid.
  - intros [= H]. apply Hnew. rewrite H. by left.
Qed.

(** X14. The audit records accumulate: after a sequence of processed
    notifications of a project whose generated document ids are pairwise
    distinct, the record of each of them is in the store under its id, as
    it was written. *)
Theorem audit_records_accumulate coll p invs ns :
  Forall2 (recorded_for coll p) invs ns →
  NoDup (map (λ inv : env * dict, auto_id inv.1) invs) →
  ∀ d (i : nat) E data n,
    invs !! i = Some (E, data) →
    ns !! i = Some n →
    deliver invs d !! (coll, auto_id E) = Some (stamped E n).
Proof.
  induction 1 as [|[E0 data0] n0 invs ns Hrec Hrest IH];
    intros Hdup d i E data n Hi Hn; [by destruct i |].
  cbn [map fst] in Hdup. apply NoDup_cons in Hdup as [Hfresh Hdup].
  cbn [deliver]. destruct i as [|i].
  - cbn in Hi, Hn. injection Hi as -> ->. injection Hn as ->.
    destruct Hrec as (budget & cost & k & Hcar & Hconf & Hcommit & Hid & Hcoll).
    cbn [fst snd] in *.
    rewrite (deliver_keeps_document coll p invs ns Hrest _ (auto_id E) Hid Hfresh).
    rewrite (run_processed_db E data n p budget cost k d Hcar Hconf Hcommit).
    rewrite <- Hcoll. apply apply_batch_record.
  - cbn in Hi, Hn. by apply (IH Hdup _ i E data n).
Qed.

Lemma ex_processed budget cost interval :
  processed_for "budget-notifications-p1" "p1"
    (ex_processing budget cost interval, ex_event) (interval, VInt cost).
Proof.
  exists (ex_note budget cost interval), (VInt budget).
  split; [carries_note | by repeat split].
Defined.

Lemma ex_recorded id budget cost interval :
  id ≠ costs_per_interval_starts_doc_name →
  recorded_for "budget-notifications-p1" "p1"
    (ex_processing_as id budget cost interval, ex_event) (ex_note budget cost interval).
Proof.
  intros Hid. exists (VInt budget), (VInt cost), interval.
  split; [carries_note | by repeat split].
Defined.

Lemma redelivery_keeps_ledger_witness :
  deliver [ (ex_processing 100 40 "2024-01", ex_event);
            (ex_processing 100 40 "2024-01", ex_event) ] ex_store
    !! ("budget-notifications-p1", costs_per_interval_starts_doc_name) =
  deliver [ (ex_processing 100 40 "2024-01", ex_event) ] ex_store
    !! ("budget-notifications-p1", costs_per_interval_starts_doc_name).
Proof.
  exact (redelivery_keeps_ledger "budget-notifications-p1" "p1" _ _ _ ex_store
           (ex_processed 100 40 "2024-01") (ex_processed 100 40 "2024-01")).
Defined.

Lemma distinct_intervals_commute_witness :
  deliver [ (ex_processing 100 40 "2024-02", ex_event);
            (ex_processing 100 10 "2024-03", ex_event) ] ex_store
    !! ("budget-notifications-p1", costs_per_interval_starts_doc_name) =
  deliver [ (ex_processing 100 10 "2024-03", ex_event);
            (ex_processing 100 40 "2024-02", ex_event) ] ex_store
    !! ("budget-notifications-p1", costs_per_interval_starts_doc_name).
Proof.
  refine (distinct_intervals_commute "budget-notifications-p1" "p1" _ _ _ _ ex_store
            (ex_processed 100 40 "2024-02") (ex_processed 100 10 "2024-03") _).
  discriminate.
Defined.

Lemma audit_records_accumulate_witness :
  deliver [ (ex_processing_as "aaaaaaaaaaaaaaaaaaa1" 100 40 "2024-01", ex_event);
            (ex_processing_as "aaaaaaaaaaaaaaaaaaa2" 100 70 "2024-01", ex_event) ] ∅
    !! ("budget-notifications-p1", "aaaaaaaaaaaaaaaaaaa1")
  = Some (stamped (ex_processing_as "aaaaaaaaaaaaaaaaaaa1" 100 40 "2024-01")
            (ex_note 100 40 "2024-01")).
Proof.
  refine (audit_records_accumulate "budget-notifications-p1" "p1"
            [ (ex_processing_as "aaaaaaaaaaaaaaaaaaa1" 100 40 "2024-01", ex_event);
              (ex_processing_as "aaaaaaaaaaaaaaaaaaa2" 100 70 "2024-01", ex_event) ]
            [ ex_note 100 40 "2024-01"; ex_note 100 70 "2024-01" ]
            _ _ ∅ 0%nat
            (ex_processing_as "aaaaaaaaaaaaaaaaaaa1" 100 40 "2024-01") ex_event
            (ex_note 100 40 "2024-01") _ _).
  - repeat constructor; apply ex_recorded; discriminate.
  - cbn. repeat constructor.
    + rewrite list_elem_of_singleton. discriminate.
    + apply not_elem_of_nil.
  - reflexivity.
  - reflexivity.
Defined.
